(** * lynx-http: response envelopes, route fallbacks and the tracing middleware

    A shallow embedding of the Go package [http] of go-lynx/lynx-http:
    - [encoder.go]  : [Response], [ResponseEncoder], [EncodeErrorFunc];
    - [handlers.go] : [defaultErrorCode], [notFoundHandler],
                      [methodNotAllowedHandler], [enhancedErrorEncoder];
    - the middleware file: [extractTraceContextFromRequest],
      [traceIDAndSpanIDFromSpan], [getClientIP], [safeProtoToJSON],
      [TracerLogPack], [TracerLogPackWithMetrics].

    The earlier variant of [handlers.go] that derives business codes from
    the reason text ([BusinessCodeMapper], [detectModuleBase]) is superseded
    by the pluggable mapper and is not embedded.

    Go statements that act on the response writer, the logger, the metric
    vectors or the reply header are written as functions that take the
    object's state and return the new one.  Library calls whose code is not
    part of the package (encoding/json, the Kratos codecs and error
    conversion, protojson, the OpenTelemetry header decoder) are section
    variables; executable stand-ins are given for the closed examples. *)

From Stdlib Require Import ZArith String Ascii List Lia.
From Stdlib.Strings Require Import Byte.
From stdpp Require Import base option list gmap strings pretty.

Set Warnings "-register-all".
Local Open Scope Z_scope.

(** ** Go values shared by the three files *)

(** The double quote character, and a Go string literal written with it:
    [quoted "code"] is the five characters ["code"] with both quotes. *)
Definition dquote : string := String (ascii_of_nat 34) EmptyString.
Definition quoted (s : string) : string := dquote +:+ s +:+ dquote.

(** [errors.Error] of Kratos: [Code] is an [int32]. *)
Record Error := mkError { Code : Z; Reason : string; Message : string }.

(** A non-nil Go [error]: a Kratos error or any other error with its text.
    A possibly nil [error] is an [option error]. *)
Inductive error :=
| KratosError (e : Error)
| PlainError (text : string).

(** The two results of a Go call returning [(T, error)]. *)
Inductive Result (A : Type) :=
| Ok (a : A)
| Err (e : error).
Arguments Ok {A} a.
Arguments Err {A} e.

(** Values handed to a serializer ([interface{}]).  A struct keeps the order
    of its fields and the [omitempty] flag of each JSON tag; [VUnsupported]
    stands for the values encoding/json rejects (channels, functions). *)
Inductive GoValue :=
| VNil
| VInt (n : Z)
| VString (s : string)
| VMap (kvs : list (string * GoValue))
| VStruct (fields : list (string * bool * GoValue))
| VUnsupported.

(** ** The logger and the metric vectors *)

Inductive Level := LInfo | LWarn | LError.

Inductive LogArg :=
| AStr (s : string)
| AErr (e : option error)
| ADuration (d : Z)
| AHeaders (h : gmap string string).

Record LogEntry := mkLog
  { log_level : Level; log_format : string; log_args : list LogArg }.

Inductive Metric :=
| ErrorCounter | RequestCounter | RequestDuration
| RequestSize | ResponseSize | InflightRequests.

Inductive MetricOp := Inc | Dec | Observe (v : Z).

Record MetricEvent := mkMetric
  { m_metric : Metric; m_labels : list string; m_op : MetricOp }.

(** What a request leaves behind outside its own response: the log lines and
    the metric updates, oldest first. *)
Record World := mkWorld
  { logs : list LogEntry; metrics : list MetricEvent }.

Definition logf (l : Level) (fmt : string) (args : list LogArg) (σ : World) : World :=
  {| logs := logs σ ++ [mkLog l fmt args]; metrics := metrics σ |}.

Definition record (m : Metric) (labels : list string) (op : MetricOp) (σ : World) : World :=
  {| logs := logs σ; metrics := metrics σ ++ [mkMetric m labels op] |}.

(** [ServiceHttp]: the fields the handlers and the middleware read.  A metric
    vector is a pointer; [true] when it is not nil. *)
Record ServiceHttp := mkService
  { ErrorCodeMapper : option (option Error -> Z);
    errorCounter : bool;
    requestCounter : bool;
    requestDuration : bool;
    requestSize : bool;
    responseSize : bool;
    inflightRequests : bool }.

(** ** net/http response writer *)

Definition StatusOK : Z := 200.
Definition StatusNotFound : Z := 404.
Definition StatusMethodNotAllowed : Z := 405.
Definition StatusInternalServerError : Z := 500.

(** [rw_status] is the status line sent (none yet when [None]), [rw_body] the
    bytes written; [rw_broken] tells whether [Write] reports an error (the
    client is gone).  One flag is enough: no function of the package writes
    twice to the same writer. *)
Record ResponseWriter := mkWriter
  { rw_header : gmap string string;
    rw_status : option Z;
    rw_body : string;
    rw_broken : bool }.

Definition Header_Set (k v : string) (w : ResponseWriter) : ResponseWriter :=
  {| rw_header := <[k := v]> (rw_header w); rw_status := rw_status w;
     rw_body := rw_body w; rw_broken := rw_broken w |}.

(** Only the first [WriteHeader] counts. *)
Definition WriteHeader (code : Z) (w : ResponseWriter) : ResponseWriter :=
  match rw_status w with
  | Some _ => w
  | None => {| rw_header := rw_header w; rw_status := Some code;
               rw_body := rw_body w; rw_broken := rw_broken w |}
  end.

(** [Write] sends status 200 first when no status was sent. *)
Definition Write (data : string) (w : ResponseWriter) : ResponseWriter * option error :=
  let w := WriteHeader StatusOK w in
  if rw_broken w then (w, Some (PlainError "write: broken pipe"))
  else ({| rw_header := rw_header w; rw_status := rw_status w;
           rw_body := rw_body w +:+ data; rw_broken := rw_broken w |}, None).

(** ** encoder.go *)

Record Response := mkResponse
  { res_Code : Z; res_Message : string; res_Data : GoValue }.

(** The exported fields with their JSON tags; the three protobuf bookkeeping
    fields are unexported and never serialized. *)
Definition Response_value (res : Response) : GoValue :=
  VStruct [("code", true, VInt (res_Code res));
           ("message", true, VString (res_Message res));
           ("data", true, res_Data res)].

(** A Kratos codec: only [Marshal] is used. *)
Record Codec := mkCodec { codec_Marshal : GoValue -> Result string }.

(** [http.CodecForRequest r "Accept"] yields [(codec, ok)]; the request keeps
    that pair. *)
Record Request := mkRequest
  { Method : string;
    URL_Path : string;
    accept_codec : option Codec;
    accept_ok : bool }.

Definition CodecForRequest (r : Request) (name : string) : option Codec * bool :=
  (accept_codec r, accept_ok r).

(** [defaultErrorCode] (handlers.go). *)
Definition defaultErrorCode (se : option Error) : Z :=
  match se with
  | None => 500
  | Some e => if Code e =? 0 then 500 else Code e
  end.

Section Encoders.

(** [json.Marshal] and Kratos' [errors.FromError]. *)
Variable json_Marshal : GoValue -> Result string.
Variable FromError : option error -> option Error.

(** [ResponseEncoder]: the writer after the call and the error returned. *)
Definition ResponseEncoder (w : ResponseWriter) (r : Request) (data : GoValue)
  : ResponseWriter * option error :=
  let res := mkResponse 200 "success" data in
  match CodecForRequest r "Accept" with
  | (Some codec, true) =>
      match codec_Marshal codec (Response_value res) with
      | Err marshalErr => (WriteHeader StatusInternalServerError w, Some marshalErr)
      | Ok body => Write body w
      end
  | _ =>
      match json_Marshal (Response_value res) with
      | Err marshalErr => (WriteHeader StatusInternalServerError w, Some marshalErr)
      | Ok body => Write body (Header_Set "Content-Type" "application/json" w)
      end
  end.

(** The value of [body] after [body, _ := json.Marshal(res)]. *)
Definition bytes_or_nil (r : Result string) : string :=
  match r with Ok body => body | Err _ => "" end.

Definition EncodeErrorFunc (w : ResponseWriter) (r : Request) (err : option error)
  (σ : World) : ResponseWriter * World :=
  let se := FromError err in
  let code := defaultErrorCode se in
  let res := mkResponse code "" VNil in
  match CodecForRequest r "Accept" with
  | (Some codec, true) =>
      match codec_Marshal codec (Response_value res) with
      | Err _ => (WriteHeader StatusOK w, σ)
      | Ok body =>
          let w := Header_Set "Content-Type" "application/json" w in
          let w := WriteHeader StatusOK w in
          match Write body w with
          | (w, Some wErr) => (w, logf LError "write error" [AErr (Some wErr)] σ)
          | (w, None) => (w, σ)
          end
      end
  | _ =>
      let body := bytes_or_nil (json_Marshal (Response_value res)) in
      let w := Header_Set "Content-Type" "application/json" w in
      let w := WriteHeader StatusOK w in
      (fst (Write body w), σ)
  end.

(** ** handlers.go *)

(** What follows the body write of a fallback handler: the error counter
    and the warning. *)
Definition recordFallback (h : ServiceHttp) (r : Request) (reason fmt : string)
  (σ : World) : World :=
  let σ := if errorCounter h
           then record ErrorCounter [Method r; URL_Path r; reason] Inc σ
           else σ in
  logf LWarn fmt [AStr (Method r); AStr (URL_Path r)] σ.

Definition notFoundHandler (h : ServiceHttp) (w : ResponseWriter) (r : Request)
  (σ : World) : ResponseWriter * World :=
  let w := Header_Set "Content-Type" "application/json" w in
  let w := WriteHeader StatusNotFound w in
  let response := VMap [("code", VInt 404)] in
  match json_Marshal response with
  | Ok data =>
      match Write data w with
      | (w, Some _) => (w, σ)
      | (w, None) => (w, recordFallback h r "not_found" "404 not found: %s %s" σ)
      end
  | Err err =>
      let σ := logf LError "Failed to marshal 404 response: %v" [AErr (Some err)] σ in
      match Write ("{" +:+ quoted "code" +:+ ": 404}") w with
      | (w, Some _) => (w, σ)
      | (w, None) => (w, recordFallback h r "not_found" "404 not found: %s %s" σ)
      end
  end.

Definition methodNotAllowedHandler (h : ServiceHttp) (w : ResponseWriter) (r : Request)
  (σ : World) : ResponseWriter * World :=
  let w := Header_Set "Content-Type" "application/json" w in
  let w := WriteHeader StatusMethodNotAllowed w in
  let response := VMap [("code", VInt 405)] in
  match json_Marshal response with
  | Ok data =>
      match Write data w with
      | (w, Some _) => (w, σ)
      | (w, None) =>
          (w, recordFallback h r "method_not_allowed" "405 method not allowed: %s %s" σ)
      end
  | Err err =>
      let σ := logf LError "Failed to marshal 405 response: %v" [AErr (Some err)] σ in
      match Write ("{" +:+ quoted "code" +:+ ": 405}") w with
      | (w, Some _) => (w, σ)
      | (w, None) =>
          (w, recordFallback h r "method_not_allowed" "405 method not allowed: %s %s" σ)
      end
  end.

(** The code chosen by [enhancedErrorEncoder]: the mapper when one is set,
    [defaultErrorCode] otherwise. *)
Definition resolveCode (h : ServiceHttp) (se : option Error) : Z :=
  match ErrorCodeMapper h with
  | Some mapper => mapper se
  | None => defaultErrorCode se
  end.

Definition enhancedErrorEncoder (h : ServiceHttp) (w : ResponseWriter) (r : Request)
  (err : option error) (σ : World) : ResponseWriter * World :=
  let se := FromError err in
  let code := resolveCode h se in
  let σ := if errorCounter h
           then record ErrorCounter [Method r; URL_Path r; "server_error"] Inc σ
           else σ in
  let w := Header_Set "Content-Type" "application/json" w in
  let w := WriteHeader StatusOK w in
  let response := VMap [("code", VInt code)] in
  let '(data, σ) :=
    match json_Marshal response with
    | Ok data => (data, σ)
    | Err marshalErr =>
        ("{" +:+ quoted "code" +:+ ": 500}",
         logf LError "Failed to encode error response: %v" [AErr (Some marshalErr)] σ)
    end in
  (fst (Write data w), σ).

End Encoders.

(** ** Executable stand-ins for the two library calls of the encoders *)

(** [isEmptyValue] of encoding/json decides what [omitempty] drops. *)
Definition isEmptyValue (v : GoValue) : bool :=
  match v with
  | VNil | VInt 0 | VString EmptyString | VMap [] => true
  | _ => false
  end.

(** A JSON string literal; of the escapes only the quote and the backslash
    are written out (the package serializes no other text than "success"). *)
Fixpoint json_escape (s : string) : string :=
  match s with
  | EmptyString => EmptyString
  | String c rest =>
      if (Ascii.eqb c (ascii_of_nat 34) || Ascii.eqb c (ascii_of_nat 92))%bool
      then String (ascii_of_nat 92) (String c (json_escape rest))
      else String c (json_escape rest)
  end.

Definition json_member (kv : string * string) : string :=
  quoted (json_escape kv.1) +:+ ":" +:+ kv.2.

Definition json_object (members : list (string * string)) : string :=
  "{" +:+ String.concat "," (map json_member members) +:+ "}".

(** Map keys are written in sorted order. *)
Fixpoint insert_by_key (kv : string * string) (l : list (string * string))
  : list (string * string) :=
  match l with
  | [] => [kv]
  | kv' :: rest =>
      if String.leb kv.1 kv'.1 then kv :: l else kv' :: insert_by_key kv rest
  end.

Definition sort_by_key (l : list (string * string)) : list (string * string) :=
  foldr insert_by_key [] l.

Fixpoint encoding_json (v : GoValue) : Result string :=
  match v with
  | VNil => Ok "null"
  | VInt n => Ok (pretty n)
  | VString s => Ok (quoted (json_escape s))
  | VMap kvs =>
      let fix entries (kvs : list (string * GoValue)) : Result (list (string * string)) :=
        match kvs with
        | [] => Ok []
        | (k, v) :: rest =>
            match encoding_json v with
            | Err e => Err e
            | Ok enc =>
                match entries rest with
                | Err e => Err e
                | Ok encs => Ok ((k, enc) :: encs)
                end
            end
        end in
      match entries kvs with
      | Err e => Err e
      | Ok encs => Ok (json_object (sort_by_key encs))
      end
  | VStruct fields =>
      let fix members (fields : list (string * bool * GoValue))
        : Result (list (string * string)) :=
        match fields with
        | [] => Ok []
        | (name, omitempty, v) :: rest =>
            if (omitempty && isEmptyValue v)%bool then members rest
            else
              match encoding_json v with
              | Err e => Err e
              | Ok enc =>
                  match members rest with
                  | Err e => Err e
                  | Ok encs => Ok ((name, enc) :: encs)
                  end
              end
        end in
      match members fields with
      | Err e => Err e
      | Ok encs => Ok (json_object encs)
      end
  | VUnsupported => Err (PlainError "json: unsupported type")
  end.

(** [errors.FromError] on the two kinds of error above: nil stays nil, a
    Kratos error is itself, any other error becomes the unknown error with
    code 500 and the error's text as message. *)
Definition kratos_FromError (err : option error) : option Error :=
  match err with
  | None => None
  | Some (KratosError e) => Some e
  | Some (PlainError text) => Some (mkError 500 "" text)
  end.

(** A codec that fails on every value, and the JSON codec. *)
Definition failing_codec : Codec :=
  mkCodec (fun _ => Err (PlainError "codec: cannot marshal")).
Definition json_codec : Codec := mkCodec encoding_json.

(** ** The middleware file: constants *)

Definition maxBodySize : Z := 1024 * 1024.
Definition contentTypeKey : string := "Content-Type".
Definition jsonContentType : string := "application/json".
Definition traceIDNone : string := "none".
Definition spanIDNone : string := "none".
Definition httpRequestLogFormat : string :=
  "[HTTP Request] api=%s endpoint=%s client-ip=%s headers=%s body=%s".
Definition httpResponseLogFormat : string :=
  "[HTTP Response] api=%s endpoint=%s duration=%v error=%v headers=%s body=%s".

(** ** Trace identities *)

(** [trace.SpanContext]: a 16-byte trace id and an 8-byte span id. *)
Record SpanContext := mkSpan { TraceID : list byte; SpanID : list byte }.

(** An id is valid when it is not the all-zero array. *)
Definition id_IsValid (id : list byte) : bool :=
  negb (forallb (Byte.eqb x00) id).

Definition IsValid (span : SpanContext) : bool :=
  id_IsValid (TraceID span) && id_IsValid (SpanID span).

Definition hexdigit (n : N) : ascii :=
  match String.get (N.to_nat n) "0123456789abcdef" with
  | Some c => c
  | None => "0"%char
  end.

Definition hex_byte (b : byte) : string :=
  let n := Byte.to_N b in
  String (hexdigit (n / 16)) (String (hexdigit (n mod 16)) EmptyString).

(** [TraceID.String] and [SpanID.String]: lower-case hexadecimal. *)
Fixpoint hex_EncodeToString (bs : list byte) : string :=
  match bs with
  | [] => EmptyString
  | b :: rest => hex_byte b +:+ hex_EncodeToString rest
  end.

Definition traceIDAndSpanIDFromSpan (span : SpanContext) : string * string :=
  if IsValid span
  then (hex_EncodeToString (TraceID span), hex_EncodeToString (SpanID span))
  else (traceIDNone, spanIDNone).

(** ** Transport and execution context *)

(** [transport.Header] read through [Get]: the empty string when absent. *)
Definition Header_Get (h : gmap string string) (key : string) : string :=
  default EmptyString (h !! key).

Definition Header_Keys (h : gmap string string) : list string :=
  (map_to_list h).*1.

(** [transport.Transporter]: the accessors the middleware calls, and the
    method of the HTTP request behind it, which no accessor of the interface
    exposes.  The request header of a Kratos transport is never nil.  The
    reply header is a shared mutable object and lives in the [Exchange]
    below. *)
Record Transporter := mkTransport
  { tr_Endpoint : string;
    tr_Operation : string;
    tr_RequestHeader : gmap string string;
    tr_RequestMethod : string }.

(** [context.Context] as the middleware reads it: [ctx.Err()], the server
    transport, the span context and the baggage bound in it. *)
Record Context := mkContext
  { ctx_Err : option error;
    ctx_transport : option Transporter;
    ctx_span : SpanContext;
    ctx_baggage : option string }.

Definition ContextWithRemoteSpanContext (ctx : Context) (sc : SpanContext) : Context :=
  {| ctx_Err := ctx_Err ctx; ctx_transport := ctx_transport ctx;
     ctx_span := sc; ctx_baggage := ctx_baggage ctx |}.

Definition ContextWithBaggage (ctx : Context) (b : string) : Context :=
  {| ctx_Err := ctx_Err ctx; ctx_transport := ctx_transport ctx;
     ctx_span := ctx_span ctx; ctx_baggage := Some b |}.

(** What one request can change while it runs: the reply header of its
    transport, the clock, and the logger and metric vectors. *)
Record Exchange := mkExchange
  { reply_header : gmap string string; now : Z; out : World }.

Definition xlog (l : Level) (fmt : string) (args : list LogArg) (x : Exchange) : Exchange :=
  {| reply_header := reply_header x; now := now x; out := logf l fmt args (out x) |}.

Definition xrecord (m : Metric) (labels : list string) (op : MetricOp) (x : Exchange)
  : Exchange :=
  {| reply_header := reply_header x; now := now x; out := record m labels op (out x) |}.

Definition ReplyHeader_Set (k v : string) (x : Exchange) : Exchange :=
  {| reply_header := <[k := v]> (reply_header x); now := now x; out := out x |}.

(** [headers := make(map); for key in Keys() { headers[key] = Get(key) }] *)
Definition collectHeaders (h : gmap string string) : gmap string string :=
  fold_left (fun headers key => <[key := Header_Get h key]> headers) (Header_Keys h) ∅.

(** [getClientIP]: the range loop over the two keys, unrolled by [fix]. *)
Definition getClientIP (header : gmap string string) : string :=
  (fix loop (keys : list string) : string :=
     match keys with
     | [] => "unknown"
     | key :: rest =>
         let ip := Header_Get header key in
         if decide (ip = EmptyString) then loop rest else ip
     end) ["X-Forwarded-For"; "X-Real-IP"].

(** A value of type [interface{}]: nil, a proto message, or anything else. *)
Inductive Payload (Msg : Type) :=
| PNil
| PMessage (msg : Msg)
| PValue (v : GoValue).
Arguments PNil {Msg}.
Arguments PMessage {Msg} msg.
Arguments PValue {Msg} v.

(** The library calls of the middleware: [proto.Message] values with their
    two serializers, the [Error()] text of an error, [fmt.Sprintf("%#v", v)],
    and the header decoders of the two propagators in [tracePropagator] (the
    span context read from [traceparent], invalid when the header is absent or
    malformed, and the baggage read from [baggage]). *)
Class Runtime := mkRuntime
  { Msg : Type;
    protojson_Marshal : Msg -> Result string;
    proto_Marshal : Msg -> Result string;
    Error_String : error -> string;
    Sprintf_gosyntax : Payload Msg -> string;
    decodeTraceparent : gmap string string -> SpanContext;
    decodeBaggage : gmap string string -> option string }.

Section Middleware.

Context `{Runtime}.

(** [middleware.Handler], acting on the exchange. *)
Definition Handler : Type :=
  Context -> Payload Msg -> Exchange -> (Payload Msg * option error) * Exchange.

(** [tracePropagator.Extract] over the carrier, which forwards [Get], [Set]
    and [Keys] to the request header: [TraceContext] binds the decoded span context
    as remote span when it is valid and leaves [ctx] alone otherwise, then
    [Baggage] binds the decoded baggage when there is one. *)
Definition tracePropagator_Extract (ctx : Context) (carrier : gmap string string)
  : Context :=
  let sc := decodeTraceparent carrier in
  let ctx := if IsValid sc then ContextWithRemoteSpanContext ctx sc else ctx in
  match decodeBaggage carrier with
  | Some b => ContextWithBaggage ctx b
  | None => ctx
  end.

Definition extractTraceContextFromRequest (ctx : Context)
  (reqHeader : option (gmap string string)) : Context :=
  match reqHeader with
  | None => ctx
  | Some h => tracePropagator_Extract ctx h
  end.

Definition len (body : string) : Z := Z.of_nat (String.length body).

Definition safeProtoToJSON (msg : Msg) : Result string :=
  match protojson_Marshal msg with
  | Err err => Err err
  | Ok body =>
      if len body >? maxBodySize
      then Ok ("<body too large, size: " +:+ pretty (len body) +:+ " bytes>")
      else Ok body
  end.

(** The body logged for the request ([what] is "request") or the response. *)
Definition loggedBody (what : string) (p : Payload Msg) : string :=
  match p with
  | PMessage msg =>
      match safeProtoToJSON msg with
      | Ok body => body
      | Err jsonErr =>
          "<failed to marshal " +:+ what +:+ ": " +:+ Error_String jsonErr +:+ ">"
      end
  | _ => Sprintf_gosyntax p
  end.

(** The deferred closure of both middlewares. *)
Definition setReplyHeaders (traceID spanID : string) (reply : Payload Msg) (x : Exchange)
  : Exchange :=
  let x := ReplyHeader_Set "Trace-Id" traceID x in
  let x := ReplyHeader_Set "Span-Id" spanID x in
  match reply with
  | PMessage _ => ReplyHeader_Set contentTypeKey jsonContentType x
  | _ => x
  end.

Definition logResponse (api endpoint : string) (duration : Z) (err : option error)
  (respHeaders : gmap string string) (respBody : string) (x : Exchange) : Exchange :=
  let args := [AStr api; AStr endpoint; ADuration duration; AErr err;
               AHeaders respHeaders; AStr respBody] in
  match err with
  | Some _ => xlog LError httpResponseLogFormat args x
  | None => xlog LInfo httpResponseLogFormat args x
  end.

Definition TracerLogPack (handler : Handler) : Handler :=
  fun ctx req x =>
  match ctx_Err ctx with
  | Some e => ((PNil, Some e), x)
  | None =>
      let start := now x in
      match ctx_transport ctx with
      | None =>
          let x := xlog LWarn
                     "Failed to get transport from context, proceeding without tracing"
                     [] x in
          handler ctx req x
      | Some tr =>
          let ctx := extractTraceContextFromRequest ctx (Some (tr_RequestHeader tr)) in
          let span := ctx_span ctx in
          let '(traceID, spanID) := traceIDAndSpanIDFromSpan span in
          let endpoint := tr_Endpoint tr in
          let clientIP := getClientIP (tr_RequestHeader tr) in
          let api := tr_Operation tr in
          let reqBody := loggedBody "request" req in
          let headers := collectHeaders (tr_RequestHeader tr) in
          let x := xlog LInfo httpRequestLogFormat
                     [AStr api; AStr endpoint; AStr clientIP; AHeaders headers;
                      AStr reqBody] x in
          let '((reply, err), x) := handler ctx req x in
          let respBody := loggedBody "response" reply in
          let respHeaders := collectHeaders (reply_header x) in
          let duration := now x - start in
          let x := logResponse api endpoint duration err respHeaders respBody x in
          ((reply, err), setReplyHeaders traceID spanID reply x)
      end
  end.

(** [service != nil && service.<vector> != nil] *)
Definition enabled (service : option ServiceHttp) (vector : ServiceHttp -> bool) : bool :=
  match service with
  | Some s => vector s
  | None => false
  end.

(** Observe the wire size of [p] when it is a proto message that marshals. *)
Definition observeSize (m : Metric) (api : string) (p : Payload Msg) (x : Exchange)
  : Exchange :=
  match p with
  | PMessage msg =>
      match proto_Marshal msg with
      | Ok data => xrecord m ["POST"; api] (Observe (len data)) x
      | Err _ => x
      end
  | _ => x
  end.

(** The block under "Record monitoring metrics". *)
Definition recordMetrics (service : option ServiceHttp) (api : string) (duration : Z)
  (reply : Payload Msg) (err : option error) (x : Exchange) : Exchange :=
  match service with
  | None => x
  | Some s =>
      let x := if requestDuration s
               then xrecord RequestDuration ["POST"; api] (Observe duration) x
               else x in
      let x := if requestCounter s
               then
                 let status := match err with Some _ => "error" | None => "success" end in
                 xrecord RequestCounter ["POST"; api; status] Inc x
               else x in
      let x := if responseSize s
               then match reply with
                    | PNil => x
                    | _ => observeSize ResponseSize api reply x
                    end
               else x in
      match err with
      | Some _ =>
          if errorCounter s
          then xrecord ErrorCounter ["POST"; api; "tracer_error"] Inc x
          else x
      | None => x
      end
  end.

Definition TracerLogPackWithMetrics (service : option ServiceHttp) (handler : Handler)
  : Handler :=
  fun ctx req x =>
  match ctx_Err ctx with
  | Some e => ((PNil, Some e), x)
  | None =>
      let start := now x in
      match ctx_transport ctx with
      | None =>
          let x := xlog LWarn
                     "Failed to get transport from context, proceeding without tracing"
                     [] x in
          handler ctx req x
      | Some tr =>
          let ctx := extractTraceContextFromRequest ctx (Some (tr_RequestHeader tr)) in
          let span := ctx_span ctx in
          let '(traceID, spanID) := traceIDAndSpanIDFromSpan span in
          let endpoint := tr_Endpoint tr in
          let clientIP := getClientIP (tr_RequestHeader tr) in
          let api := tr_Operation tr in
          let reqBody := loggedBody "request" req in
          let headers := collectHeaders (tr_RequestHeader tr) in
          let x := xlog LInfo httpRequestLogFormat
                     [AStr api; AStr endpoint; AStr clientIP; AHeaders headers;
                      AStr reqBody] x in
          let inflight := enabled service inflightRequests in
          let x := if inflight then xrecord InflightRequests [api] Inc x else x in
          let x := if enabled service requestSize
                   then observeSize RequestSize api req x
                   else x in
          let '((reply, err), x) := handler ctx req x in
          let respBody := loggedBody "response" reply in
          let respHeaders := collectHeaders (reply_header x) in
          let duration := now x - start in
          let x := logResponse api endpoint duration err respHeaders respBody x in
          let x := recordMetrics service api duration reply err x in
          (* the deferred calls, last registered first *)
          let x := if inflight then xrecord InflightRequests [api] Dec x else x in
          ((reply, err), setReplyHeaders traceID spanID reply x)
      end
  end.

End Middleware.

(** ** Executable stand-ins for the library calls of the middleware *)

(** The fields of a header value between dashes. *)
Fixpoint dash_fields (s : string) : list string :=
  match s with
  | EmptyString => [EmptyString]
  | String c rest =>
      if Ascii.eqb c "-"%char then EmptyString :: dash_fields rest
      else match dash_fields rest with
           | f :: fs => String c f :: fs
           | [] => [String c EmptyString]
           end
  end.

Definition unhex (c : ascii) : option N :=
  let n := N_of_ascii c in
  if ((48 <=? n) && (n <=? 57))%N then Some (n - 48)%N
  else if ((97 <=? n) && (n <=? 102))%N then Some (n - 87)%N
  else None.

Fixpoint hex_DecodeString (s : string) : option (list byte) :=
  match s with
  | EmptyString => Some []
  | String hi (String lo rest) =>
      match unhex hi, unhex lo, hex_DecodeString rest with
      | Some h, Some l, Some bs =>
          match Byte.of_N (16 * h + l) with
          | Some b => Some (b :: bs)
          | None => None
          end
      | _, _, _ => None
      end
  | String _ EmptyString => None
  end.

Definition noSpan : SpanContext := mkSpan [] [].

(** The W3C [traceparent] header of version 00,
    [00-<32 hex>-<16 hex>-<2 hex>]: the span context it carries, or the
    invalid one. *)
Definition w3c_traceparent (carrier : gmap string string) : SpanContext :=
  match dash_fields (Header_Get carrier "traceparent") with
  | [version; traceID; spanID; flags] =>
      if decide (version = "00" ∧ String.length traceID = 32%nat
                 ∧ String.length spanID = 16%nat ∧ String.length flags = 2%nat)
      then match hex_DecodeString traceID, hex_DecodeString spanID,
                 hex_DecodeString flags with
           | Some t, Some s, Some _ =>
               if IsValid (mkSpan t s) then mkSpan t s else noSpan
           | _, _, _ => noSpan
           end
      else noSpan
  | _ => noSpan
  end.

Definition w3c_baggage (carrier : gmap string string) : option string :=
  let b := Header_Get carrier "baggage" in
  if decide (b = EmptyString) then None else Some b.

(** A proto message stood for by its JSON text: both serializers return it. *)
Definition text_Marshal (msg : string) : Result string := Ok msg.

Definition plain_Error_String (e : error) : string :=
  match e with
  | PlainError text => text
  | KratosError e => Message e
  end.

Definition plain_gosyntax (p : Payload string) : string :=
  match p with
  | PNil => "<nil>"
  | PMessage msg => msg
  | PValue v => bytes_or_nil (encoding_json v)
  end.

Definition text_runtime : Runtime :=
  {| Msg := string;
     protojson_Marshal := text_Marshal;
     proto_Marshal := text_Marshal;
     Error_String := plain_Error_String;
     Sprintf_gosyntax := plain_gosyntax;
     decodeTraceparent := w3c_traceparent;
     decodeBaggage := w3c_baggage |}.

(** A codec for another wire format than JSON, after the XML codec
    registered with Kratos: an element per exported field, named by the Go
    field (the JSON name with its first letter in upper case), nil interface
    fields left out. *)
Definition xml_text (v : GoValue) : string :=
  match v with
  | VInt n => pretty n
  | VString s => s
  | _ => EmptyString
  end.

Definition capitalized (name : string) : string :=
  match name with
  | EmptyString => EmptyString
  | String c rest =>
      let n := N_of_ascii c in
      if ((97 <=? n) && (n <=? 122))%N then String (ascii_of_N (n - 32)) rest
      else name
  end.

Definition xml_element (field : string * bool * GoValue) : string :=
  match field.2 with
  | VNil => EmptyString
  | v =>
      "<" +:+ capitalized field.1.1 +:+ ">" +:+ xml_text v
      +:+ "</" +:+ capitalized field.1.1 +:+ ">"
  end.

Definition xml_Marshal (v : GoValue) : Result string :=
  match v with
  | VStruct fields =>
      Ok ("<Response>" +:+ String.concat EmptyString (map xml_element fields)
          +:+ "</Response>")
  | _ => Err (PlainError "xml: unsupported type")
  end.

Definition xml_codec : Codec := mkCodec xml_Marshal.

(** A serializer that rejects every value. *)
Definition failing_Marshal (v : GoValue) : Result string :=
  Err (PlainError "json: unsupported type").

(** ** Vocabulary of the statements *)

(** The JSON object whose only member is the integer [code], as
    [json.Marshal] writes it and as the hard-coded fallbacks spell it. *)
Definition envelope (code : Z) : string :=
  "{" +:+ quoted "code" +:+ ":" +:+ pretty code +:+ "}".

Definition envelope_literal (code : Z) : string :=
  "{" +:+ quoted "code" +:+ ": " +:+ pretty code +:+ "}".

Definition is_code_envelope (body : string) : Prop :=
  ∃ code : Z, body = envelope code ∨ body = envelope_literal code.

(** The serializer a request selects: the negotiated codec, or encoding/json
    when the negotiation gives none. *)
Definition negotiated (json_Marshal : GoValue -> Result string) (r : Request)
  : GoValue -> Result string :=
  match CodecForRequest r "Accept" with
  | (Some codec, true) => codec_Marshal codec
  | _ => json_Marshal
  end.

(** The envelope [EncodeErrorFunc] builds for a code: no message, no data. *)
Definition code_only (code : Z) : GoValue :=
  Response_value (mkResponse code EmptyString VNil).

Definition is_warning (e : LogEntry) : bool :=
  match log_level e with
  | LWarn => true
  | _ => false
  end.

Definition warnings (σ : World) : list LogEntry := List.filter is_warning (logs σ).

(** The increments of the error counter a fallback handler makes. *)
Definition fallbackCount (h : ServiceHttp) (r : Request) (reason : string)
  : list MetricEvent :=
  if errorCounter h then [mkMetric ErrorCounter [Method r; URL_Path r; reason] Inc]
  else [].

(** An identifier of [n] hexadecimal zeros. *)
Fixpoint zeros (n : nat) : string :=
  match n with
  | O => EmptyString
  | S n => String "0" (zeros n)
  end.

(** The labels the text of the specification gives a metric of the
    middleware, for a method and an operation. *)
Definition labelled (method api : string) (e : MetricEvent) : Prop :=
  match m_metric e with
  | InflightRequests => m_labels e = [api]
  | RequestCounter =>
      m_labels e = [method; api; "success"] ∨ m_labels e = [method; api; "error"]
  | ErrorCounter => m_labels e = [method; api; "tracer_error"]
  | _ => m_labels e = [method; api]
  end.

(** ** Data of the closed examples *)

Definition fresh_writer : ResponseWriter := mkWriter ∅ None EmptyString false.
Definition quiet : World := mkWorld [] [].

Definition service_with (mapper : option (option Error -> Z)) : ServiceHttp :=
  mkService mapper true true true true true true.

Definition get_unknown : Request := mkRequest "GET" "/unknown" None false.
Definition get_as_xml : Request := mkRequest "GET" "/items" (Some xml_codec) true.

Definition boom : option error := Some (PlainError "dial tcp 10.0.0.7:5432: refused").

(** What a stretch of the middleware adds to the metric updates, all of them
    satisfying [P]. *)
Definition recorded_with `{Runtime} (P : MetricEvent -> Prop) (x x' : Exchange) : Prop :=
  ∃ added, metrics (out x') = metrics (out x) ++ added ∧ Forall P added.

Definition span_of_hex (traceID spanID : string) : SpanContext :=
  mkSpan (default [] (hex_DecodeString traceID)) (default [] (hex_DecodeString spanID)).

(** A GET request to the Greeter operation that carries a [traceparent]. *)
Definition upstream_headers : gmap string string :=
  {[ "traceparent" := "00-4bf92f3577b34da6a3ce929d0e0e4736-00f067aa0ba902b7-01" ]}.

Definition get_greeter : Transporter :=
  mkTransport "http://greeter:8000" "/helloworld.Greeter/SayHello" upstream_headers "GET".

(** Two contexts whose span was bound by an upstream middleware: one in
    another trace than the header's, one in the header's trace with the span
    the server started for this request. *)
Definition ctx_bound : Context :=
  mkContext None (Some get_greeter)
    (span_of_hex "0af7651916cd43dd8448eb211c80319c" "b7ad6b7169203331") None.

Definition ctx_server_span : Context :=
  mkContext None (Some get_greeter)
    (span_of_hex "4bf92f3577b34da6a3ce929d0e0e4736" "53995c3f42cd8ad8") None.

Definition ctx_unbound : Context := mkContext None (Some get_greeter) noSpan None.

(** The same request after its caller gave up. *)
Definition ctx_cancelled : Context :=
  mkContext (Some (PlainError "context canceled")) (Some get_greeter) noSpan None.

Definition idle : Exchange := mkExchange ∅ 0 quiet.

(** A handler that answers after 5 time units, and one that fails. *)
Definition greet : @Handler text_runtime :=
  fun ctx req x =>
    ((PMessage "{}", None), mkExchange (reply_header x) (now x + 5) (out x)).

Definition refuse : @Handler text_runtime :=
  fun ctx req x => ((PNil, Some (PlainError "permission denied")), x).

(** Strings of [2^n] copies of a text. *)
Fixpoint doubled (n : nat) (s : string) : string :=
  match n with
  | O => s
  | S n => doubled n (s +:+ s)
  end.

(** A JSON text of exactly 1 MiB, and one byte more. *)
Definition body_1MiB : string := doubled 20 "7".
Definition body_over_1MiB : string := String "7" body_1MiB.

(** The label of the request counter for an outcome of the handler. *)
Definition outcome (err : option error) : string :=
  match err with
  | Some _ => "error"
  | None => "success"
  end.

(** ** Counting the metric updates *)

#[global] Instance Metric_eq_dec : EqDecision Metric.
Proof. solve_decision. Defined.

(** How many updates of a metric vector a list holds. *)
Definition occurrences (m : Metric) (events : list MetricEvent) : nat :=
  length (List.filter (fun e => bool_decide (m_metric e = m)) events).

(** What an update adds to the in-flight gauge of an operation. *)
Definition gauge_step (api : string) (e : MetricEvent) : Z :=
  match m_metric e, m_op e with
  | InflightRequests, Inc => if bool_decide (m_labels e = [api]) then 1 else 0
  | InflightRequests, Dec => if bool_decide (m_labels e = [api]) then -1 else 0
  | _, _ => 0
  end.

(** The value of the in-flight gauge of an operation after the updates. *)
Definition inflight (api : string) (events : list MetricEvent) : Z :=
  foldr (fun e total => gauge_step api e + total) 0 events.

(** No metric vector is set: the service is nil or all its vectors are. *)
Definition no_vectors (service : option ServiceHttp) : bool :=
  negb (enabled service errorCounter || enabled service requestCounter
        || enabled service requestDuration || enabled service requestSize
        || enabled service responseSize || enabled service inflightRequests).

(** Go's [int] on a 64-bit platform: addition wraps around. *)
Definition wrap64 (z : Z) : Z := (z + 2 ^ 63) mod 2 ^ 64 - 2 ^ 63.
Definition int_add (a b : Z) : Z := wrap64 (a + b).

(** ** The earlier handlers file: business codes from the reason text *)

Module BusinessCodes.

(** [strings.HasPrefix] and [strings.Contains], on the bytes of the strings. *)
Fixpoint HasPrefix (s prefix : string) : bool :=
  match prefix, s with
  | EmptyString, _ => true
  | String c prefix', String d s' => Ascii.eqb c d && HasPrefix s' prefix'
  | String _ _, EmptyString => false
  end.

Fixpoint Contains (s substr : string) : bool :=
  HasPrefix s substr
  || match s with
     | EmptyString => false
     | String _ s' => Contains s' substr
     end.

(** [strings.Split] for a separator of one byte. *)
Fixpoint Split (s : string) (sep : ascii) : list string :=
  match s with
  | EmptyString => [EmptyString]
  | String c rest =>
      if Ascii.eqb c sep then EmptyString :: Split rest sep
      else match Split rest sep with
           | part :: parts => String c part :: parts
           | [] => [String c EmptyString]
           end
  end.

(** The entries of [errorReasonMap]. *)
Definition errorReasonMap : list (string * Z) :=
  [("USER_DOES_NOT_EXIST", 0); ("INCORRECT_PASSWORD", 1);
   ("ACCOUNT_HAS_BEEN_BANNED", 2); ("LOGIN_ERROR", 3); ("USER_ALREADY_EXISTS", 4);
   ("INVALID_VERIFICATION_CODE", 5); ("VERIFICATION_CODE_EXPIRED", 6);
   ("INVALID_TOKEN", 7); ("TOKEN_EXPIRED", 8); ("REGISTER_ERROR", 9);
   ("UPDATE_PROFILE_ERROR", 10); ("SEND_CODE_ERROR", 11)].

(** The [range] loop over the map, in the order the runtime visits the
    entries: the value of the first name found in the text, if any. *)
Fixpoint firstContained (reasonUpper : string) (visited : list (string * Z)) : option Z :=
  match visited with
  | [] => None
  | (enumName, enumValue) :: rest =>
      if Contains reasonUpper enumName then Some enumValue
      else firstContained reasonUpper rest
  end.

Section Mapping.

(** [strings.ToUpper] and [strings.ToLower], the order in which [range]
    visits [errorReasonMap] (Go leaves it unspecified), [json.Marshal] and
    [errors.FromError]. *)
Variable ToUpper : string -> string.
Variable ToLower : string -> string.
Variable visited : list (string * Z).
Variable json_Marshal : GoValue -> Result string.
Variable FromError : option error -> option Error.

Definition BusinessCodeMapper (reason : string) (moduleBase : Z) : Z :=
  let reasonUpper := ToUpper reason in
  match firstContained reasonUpper visited with
  | Some enumValue => int_add moduleBase enumValue
  | None =>
      let parts := Split reasonUpper "_" in
      if (0 <? length parts)%nat then int_add moduleBase 999
      else int_add moduleBase 999
  end.

Definition detectModuleBase (reason : string) : Z :=
  let reasonLower := ToLower reason in
  if Contains reasonLower "betday-user"
     || (Contains reasonLower "user" && negb (Contains reasonLower "game")
         && negb (Contains reasonLower "pay"))
  then 100000
  else if Contains reasonLower "betday-game" || Contains reasonLower "game"
  then 200000
  else if Contains reasonLower "betday-pay" || Contains reasonLower "pay"
          || Contains reasonLower "payment"
  then 300000
  else if Contains reasonLower "betday-base" || Contains reasonLower "base"
  then 400000
  else 100000.

(** The earlier [enhancedErrorEncoder].  It reads [se.Reason] without a nil
    check: [None] is the nil pointer panic. *)
Definition enhancedErrorEncoder (h : ServiceHttp) (w : ResponseWriter) (r : Request)
  (err : option error) (σ : World) : option (ResponseWriter * World) :=
  match FromError err with
  | None => None
  | Some se =>
      let moduleBase := detectModuleBase (Reason se) in
      let businessCode := BusinessCodeMapper (Reason se) moduleBase in
      let httpStatusCode := StatusOK in
      let σ := if errorCounter h
               then record ErrorCounter [Method r; URL_Path r; "server_error"] Inc σ
               else σ in
      let w := Header_Set "Content-Type" "application/json" w in
      let w := WriteHeader httpStatusCode w in
      let response := VMap [("code", VInt businessCode)] in
      match json_Marshal response with
      | Ok data => Some (fst (Write data w), σ)
      | Err err =>
          let σ := logf LError "Failed to encode error response: %v" [AErr (Some err)] σ in
          Some (fst (Write ("{" +:+ quoted "code" +:+ ": 100999}") w), σ)
      end
  end.

End Mapping.

(** Stand-ins for the two case mappings, on ASCII letters. *)
Definition ascii_upper (c : ascii) : ascii :=
  let n := N_of_ascii c in
  if ((97 <=? n) && (n <=? 122))%N then ascii_of_N (n - 32) else c.

Definition ascii_lower (c : ascii) : ascii :=
  let n := N_of_ascii c in
  if ((65 <=? n) && (n <=? 90))%N then ascii_of_N (n + 32) else c.

Fixpoint map_bytes (f : ascii -> ascii) (s : string) : string :=
  match s with
  | EmptyString => EmptyString
  | String c rest => String (f c) (map_bytes f rest)
  end.

Definition ascii_ToUpper : string -> string := map_bytes ascii_upper.
Definition ascii_ToLower : string -> string := map_bytes ascii_lower.

End BusinessCodes.

(** ** Data of further examples *)

Definition broken_writer : ResponseWriter := mkWriter ∅ None EmptyString true.

(** A request with both forwarding headers, the first one empty. *)
Definition forwarded_headers : gmap string string :=
  {[ "X-Forwarded-For" := EmptyString; "X-Real-IP" := "203.0.113.9" ]}.

Definition ctx_plain : Context := mkContext None None noSpan None.

(** ** The two log lines of the middleware *)

Definition requestLog `{Runtime} (tr : Transporter) (req : Payload Msg) : LogEntry :=
  mkLog LInfo httpRequestLogFormat
    [AStr (tr_Operation tr); AStr (tr_Endpoint tr);
     AStr (getClientIP (tr_RequestHeader tr));
     AHeaders (collectHeaders (tr_RequestHeader tr));
     AStr (loggedBody "request" req)].

Definition responseLog `{Runtime} (tr : Transporter) (duration : Z)
  (reply : Payload Msg) (err : option error) (replyHeader : gmap string string)
  : LogEntry :=
  mkLog match err with Some _ => LError | None => LInfo end httpResponseLogFormat
    [AStr (tr_Operation tr); AStr (tr_Endpoint tr); ADuration duration; AErr err;
     AHeaders (collectHeaders replyHeader); AStr (loggedBody "response" reply)].

(** ** The metric updates of the metrics middleware, as lists *)

Definition sizeEvents `{Runtime} (m : Metric) (api : string) (p : Payload Msg)
  : list MetricEvent :=
  match p with
  | PMessage msg =>
      match proto_Marshal msg with
      | Ok data => [mkMetric m ["POST"; api] (Observe (len data))]
      | Err _ => []
      end
  | _ => []
  end.

(** The updates made before the handler is called. *)
Definition eventsBefore `{Runtime} (service : option ServiceHttp) (api : string)
  (req : Payload Msg) : list MetricEvent :=
  (if enabled service inflightRequests then [mkMetric InflightRequests [api] Inc] else [])
  ++ (if enabled service requestSize then sizeEvents RequestSize api req else []).

(** The updates made after the handler returned, the deferred one last. *)
Definition eventsAfter `{Runtime} (service : option ServiceHttp) (api : string)
  (duration : Z) (reply : Payload Msg) (err : option error) : list MetricEvent :=
  (if enabled service requestDuration
   then [mkMetric RequestDuration ["POST"; api] (Observe duration)] else [])
  ++ (if enabled service requestCounter
      then [mkMetric RequestCounter ["POST"; api; outcome err] Inc] else [])
  ++ (if enabled service responseSize then sizeEvents ResponseSize api reply else [])
  ++ (if enabled service errorCounter && bool_decide (err ≠ None)
      then [mkMetric ErrorCounter ["POST"; api; "tracer_error"] Inc] else [])
  ++ (if enabled service inflightRequests then [mkMetric InflightRequests [api] Dec]
      else []).

(** A request without an Accept header: Kratos hands back its JSON codec and
    [ok = false], so the encoders take their encoding/json branch. *)
Definition get_without_accept : Request :=
  mkRequest "GET" "/unknown" (Some json_codec) false.

(** A request whose Accept header selects the JSON codec. *)
Definition get_as_json : Request := mkRequest "GET" "/unknown" (Some json_codec) true.

(** The loop of [collectHeaders], over whatever [Keys()] lists and [Get]
    returns. *)
Definition collectLoop (keys : list string) (get : string -> string)
  : gmap string string :=
  fold_left (fun headers key => <[key := get key]> headers) keys ∅.

(** An error of the game module whose reason names a login failure. *)
Definition login_error_in_game : option error :=
  Some (KratosError (mkError 401 "betday-game.v1.ErrorReason_LOGIN_ERROR" "bad login")).

(** * Properties of the encoders and the fallback handlers *)

(** ** The response writer *)

Lemma Write_body data w :
  rw_body (Write data w).1 = if rw_broken w then rw_body w else rw_body w +:+ data.
Proof.
  unfold Write, WriteHeader.
  destruct (rw_status w), (rw_broken w) eqn:E; simpl; by rewrite ?E.
Qed.

Lemma Write_status data w code :
  rw_status w = Some code -> rw_status (Write data w).1 = Some code.
Proof.
  intros E. unfold Write, WriteHeader. rewrite E.
  destruct (rw_broken w); simpl; exact E.
Qed.

Lemma Write_error data w :
  (Write data w).2 = if rw_broken w then Some (PlainError "write: broken pipe") else None.
Proof.
  unfold Write, WriteHeader.
  destruct (rw_status w), (rw_broken w) eqn:E; simpl; by rewrite ?E.
Qed.

Lemma started_broken code w :
  rw_broken (WriteHeader code (Header_Set "Content-Type" "application/json" w))
  = rw_broken w.
Proof. unfold WriteHeader. simpl. by destruct (rw_status w). Qed.

(** Content type, status, body: the three calls every handler ends with. *)
Lemma answered_body code data w :
  rw_broken w = false ->
  rw_body (Write data
             (WriteHeader code (Header_Set "Content-Type" "application/json" w))).1
  = rw_body w +:+ data.
Proof.
  intros Hb. rewrite Write_body, started_broken, Hb.
  unfold WriteHeader. simpl. by destruct (rw_status w).
Qed.

Lemma answered_status code data w :
  rw_status w = None ->
  rw_status (Write data
               (WriteHeader code (Header_Set "Content-Type" "application/json" w))).1
  = Some code.
Proof. intros Hs. apply Write_status. unfold WriteHeader. simpl. by rewrite Hs. Qed.

(** ** The envelope as encoding/json writes it *)

Lemma encoding_json_code_map code :
  encoding_json (VMap [("code", VInt code)]) = Ok (envelope code).
Proof. reflexivity. Qed.

Lemma encoding_json_code_only code :
  code ≠ 0 -> encoding_json (code_only code) = Ok (envelope code).
Proof. by destruct code. Qed.

(** Without a code the [omitempty] tag leaves an empty object. *)
Lemma encoding_json_zero_code : encoding_json (code_only 0) = Ok "{}".
Proof. reflexivity. Qed.

Lemma defaultErrorCode_nonzero se : defaultErrorCode se ≠ 0.
Proof.
  destruct se as [e|]; simpl; [|done].
  by destruct (Z.eqb_spec (Code e) 0).
Qed.

(** ** The error encoders *)

(** C1.  The body [enhancedErrorEncoder] writes for an error is the JSON
    object with the one member [code], whose value is the mapper's result as
    it is when [ErrorCodeMapper] is set, and otherwise the [Code] of the
    Kratos error when that is not zero and 500 when it is zero or the Kratos
    error is nil.  (The writer accepts the bytes.) *)
Theorem enhancedErrorEncoder_envelope_code
  (FromError : option error -> option Error) h w r err σ :
  rw_broken w = false ->
  rw_body (enhancedErrorEncoder encoding_json FromError h w r err σ).1
  = rw_body w +:+ envelope
      match ErrorCodeMapper h with
      | Some mapper => mapper (FromError err)
      | None =>
          match FromError err with
          | Some se => if Code se =? 0 then 500 else Code se
          | None => 500
          end
      end.
Proof.
  intros Hb. unfold enhancedErrorEncoder.
  rewrite encoding_json_code_map. cbn [fst].
  by rewrite answered_body.
Qed.

(** Scenario 5 of the specification: a mapper that answers 123456. *)
Lemma enhancedErrorEncoder_envelope_code_witness :
  rw_body (enhancedErrorEncoder encoding_json kratos_FromError
             (service_with (Some (fun _ => 123456))) fresh_writer get_unknown boom quiet).1
  = envelope 123456.
Proof.
  exact (enhancedErrorEncoder_envelope_code kratos_FromError
           (service_with (Some (fun _ => 123456))) fresh_writer get_unknown boom quiet
           eq_refl).
Defined.

(** Without a mapper: the code of a Kratos error, 500 for code 0 (scenario 2
    of the specification, with status 200) and for a nil error. *)
Example default_codes :
  let body err := rw_body (enhancedErrorEncoder encoding_json kratos_FromError
                             (service_with None) fresh_writer get_unknown err quiet).1 in
  body (Some (KratosError (mkError 403 "FORBIDDEN" "no access"))) = envelope 403
  ∧ body (Some (KratosError (mkError 0 "UNKNOWN" "db down"))) = envelope 500
  ∧ body None = envelope 500
  ∧ envelope 500 = "{" +:+ quoted "code" +:+ ":500}".
Proof. repeat split; reflexivity. Qed.

(** C2 as stated fails: when the request negotiates a codec, the body
    [EncodeErrorFunc] writes is that codec's text, here not a JSON object. *)
Lemma EncodeErrorFunc_negotiated_body_not_json :
  rw_body (EncodeErrorFunc encoding_json kratos_FromError fresh_writer get_as_xml
             boom quiet).1
  = "<Response><Code>500</Code><Message></Message></Response>"
  ∧ ¬ is_code_envelope
        (rw_body (EncodeErrorFunc encoding_json kratos_FromError fresh_writer get_as_xml
                    boom quiet).1).
Proof.
  split; [reflexivity|].
  intros [code [E|E]]; vm_compute in E; discriminate E.
Qed.

(** C2, amended.  On a fresh writer that accepts bytes, both error encoders
    send status 200.  [enhancedErrorEncoder] writes the JSON object with the
    one member [code].  [EncodeErrorFunc] hands its serializer an envelope
    with the code and neither message nor data: it writes the JSON object
    with the one member [code] when no codec is negotiated, and what the
    negotiated codec makes of that envelope otherwise.  Nothing of the error
    but its code reaches the body. *)
Theorem error_responses_status_and_envelope
  (FromError : option error -> option Error) h w r err σ :
  rw_status w = None -> rw_broken w = false ->
  let w1 := (enhancedErrorEncoder encoding_json FromError h w r err σ).1 in
  let w2 := (EncodeErrorFunc encoding_json FromError w r err σ).1 in
  let code := defaultErrorCode (FromError err) in
  (rw_status w1 = Some StatusOK
   ∧ rw_body w1 = rw_body w +:+ envelope (resolveCode h (FromError err)))
  ∧ rw_status w2 = Some StatusOK
  ∧ match CodecForRequest r "Accept" with
    | (Some codec, true) =>
        ∀ body, codec_Marshal codec (code_only code) = Ok body ->
                rw_body w2 = rw_body w +:+ body
    | _ => rw_body w2 = rw_body w +:+ envelope code
    end.
Proof.
  intros Hs Hb. cbv zeta. split; [split|].
  - unfold enhancedErrorEncoder. rewrite encoding_json_code_map. cbn [fst].
    by apply answered_status.
  - unfold enhancedErrorEncoder. rewrite encoding_json_code_map. cbn [fst].
    by apply answered_body.
  - unfold EncodeErrorFunc, CodecForRequest.
    fold (code_only (defaultErrorCode (FromError err))).
    rewrite (encoding_json_code_only _ (defaultErrorCode_nonzero _)).
    destruct (accept_codec r) as [codec|], (accept_ok r); cbn [fst bytes_or_nil];
      try (split; [by apply answered_status | by apply answered_body]).
    destruct (codec_Marshal codec _) as [body|e].
    + pose proof (answered_status StatusOK body w Hs) as Ws.
      pose proof (answered_body StatusOK body w Hb) as Wb.
      destruct (Write body _) as [w' [e|]]; cbn [fst] in *;
        (split; [done | by intros body' [= <-]]).
    + split; [unfold WriteHeader; by rewrite Hs | by intros body'].
Qed.

(** A plain error through both encoders: status 200, body [{"code":500}]. *)
Lemma error_responses_status_and_envelope_witness :
  (rw_status (enhancedErrorEncoder encoding_json kratos_FromError (service_with None)
                fresh_writer get_unknown boom quiet).1 = Some 200
   ∧ rw_body (enhancedErrorEncoder encoding_json kratos_FromError (service_with None)
                fresh_writer get_unknown boom quiet).1 = envelope 500)
  ∧ rw_status (EncodeErrorFunc encoding_json kratos_FromError fresh_writer get_unknown
                 boom quiet).1 = Some 200
  ∧ rw_body (EncodeErrorFunc encoding_json kratos_FromError fresh_writer get_unknown
               boom quiet).1 = envelope 500.
Proof.
  exact (error_responses_status_and_envelope kratos_FromError (service_with None)
           fresh_writer get_unknown boom quiet eq_refl eq_refl).
Defined.

(** C3 as stated fails: a payload encoding/json rejects makes
    [ResponseEncoder] send status 500 and return the error, with no body. *)
Lemma ResponseEncoder_failure_leaves_no_body :
  encoding_json (Response_value (mkResponse 200 "success" VUnsupported))
  = Err (PlainError "json: unsupported type")
  ∧ ResponseEncoder encoding_json fresh_writer get_unknown VUnsupported
    = (mkWriter ∅ (Some StatusInternalServerError) EmptyString false,
       Some (PlainError "json: unsupported type")).
Proof. split; reflexivity. Qed.

(** C3, amended.  On a fresh writer that accepts bytes: when serializing its
    map fails, [enhancedErrorEncoder] writes the hard-coded envelope with
    code 500; when the serializer of the request fails, [ResponseEncoder]
    writes no body, sends status 500 and returns the serializer's error to
    its caller, and [EncodeErrorFunc] still sends status 200. *)
Theorem serialization_failure_outcomes
  (json_Marshal : GoValue -> Result string) (FromError : option error -> option Error)
  h w r err data σ :
  rw_status w = None -> rw_broken w = false ->
  (∀ e, json_Marshal (VMap [("code", VInt (resolveCode h (FromError err)))]) = Err e ->
     rw_body (enhancedErrorEncoder json_Marshal FromError h w r err σ).1
     = rw_body w +:+ envelope_literal 500)
  ∧ (∀ e, negotiated json_Marshal r (Response_value (mkResponse 200 "success" data))
          = Err e ->
       ResponseEncoder json_Marshal w r data
       = ({| rw_header := rw_header w; rw_status := Some StatusInternalServerError;
             rw_body := rw_body w; rw_broken := rw_broken w |}, Some e))
  ∧ (∀ e, negotiated json_Marshal r (code_only (defaultErrorCode (FromError err)))
          = Err e ->
       rw_status (EncodeErrorFunc json_Marshal FromError w r err σ).1 = Some StatusOK).
Proof.
  intros Hs Hb. split; [|split]; intros e He.
  - unfold enhancedErrorEncoder. rewrite He. cbn [fst].
    by apply answered_body.
  - unfold ResponseEncoder. unfold negotiated in He.
    destruct (CodecForRequest r "Accept") as [[codec|] []];
      rewrite He; unfold WriteHeader; by rewrite Hs.
  - unfold EncodeErrorFunc. unfold negotiated in He.
    fold (code_only (defaultErrorCode (FromError err))).
    destruct (CodecForRequest r "Accept") as [[codec|] []]; rewrite He; cbn [fst];
      first [ by apply answered_status | unfold WriteHeader; by rewrite Hs ].
Qed.

(** The three encoders over a serializer that rejects everything. *)
Lemma serialization_failure_outcomes_witness :
  rw_body (enhancedErrorEncoder failing_Marshal kratos_FromError (service_with None)
             fresh_writer get_unknown boom quiet).1 = envelope_literal 500
  ∧ ResponseEncoder failing_Marshal fresh_writer get_unknown VNil
    = (mkWriter ∅ (Some 500) EmptyString false, Some (PlainError "json: unsupported type"))
  ∧ rw_status (EncodeErrorFunc failing_Marshal kratos_FromError fresh_writer get_unknown
                 boom quiet).1 = Some 200.
Proof.
  destruct (serialization_failure_outcomes failing_Marshal kratos_FromError
              (service_with None) fresh_writer get_unknown boom VNil quiet
              eq_refl eq_refl) as (Hfallback & Hresponse & Herror).
  split; [|split].
  - exact (Hfallback _ eq_refl).
  - exact (Hresponse _ eq_refl).
  - exact (Herror _ eq_refl).
Defined.

(** ** The fallback handlers *)

Lemma warnings_logf l fmt args σ :
  warnings (logf l fmt args σ)
  = warnings σ ++ (if is_warning (mkLog l fmt args) then [mkLog l fmt args] else []).
Proof. unfold warnings, logf. simpl. rewrite List.filter_app. simpl. by destruct l. Qed.

Lemma warnings_record m labels op σ : warnings (record m labels op σ) = warnings σ.
Proof. reflexivity. Qed.

Lemma recordFallback_metrics h r reason fmt σ :
  metrics (recordFallback h r reason fmt σ) = metrics σ ++ fallbackCount h r reason.
Proof.
  unfold recordFallback, fallbackCount. destruct (errorCounter h); simpl; [done|].
  by rewrite app_nil_r.
Qed.

Lemma recordFallback_warnings h r reason fmt σ :
  warnings (recordFallback h r reason fmt σ)
  = warnings σ ++ [mkLog LWarn fmt [AStr (Method r); AStr (URL_Path r)]].
Proof.
  unfold recordFallback. rewrite warnings_logf. simpl. by destruct (errorCounter h).
Qed.

(** The common tail of the two fallback handlers, after the body write. *)
Lemma after_write data w code h r reason fmt σ :
  let σ' := (match Write data
                     (WriteHeader code (Header_Set "Content-Type" "application/json" w))
             with
             | (w', Some _) => (w', σ)
             | (w', None) => (w', recordFallback h r reason fmt σ)
             end).2 in
  if rw_broken w
  then metrics σ' = metrics σ ∧ warnings σ' = warnings σ
  else metrics σ' = metrics σ ++ fallbackCount h r reason
       ∧ warnings σ' = warnings σ ++ [mkLog LWarn fmt [AStr (Method r); AStr (URL_Path r)]].
Proof.
  cbv zeta.
  pose proof (Write_error data
                (WriteHeader code (Header_Set "Content-Type" "application/json" w))) as He.
  rewrite started_broken in He.
  destruct (Write data _) as [w' [e|]]; simpl in He; destruct (rw_broken w);
    try discriminate He; cbn [snd].
  - done.
  - by rewrite recordFallback_metrics, recordFallback_warnings.
Qed.

Lemma notFoundHandler_after_write (json_Marshal : GoValue -> Result string) h w r σ :
  let σ' := (notFoundHandler json_Marshal h w r σ).2 in
  if rw_broken w
  then metrics σ' = metrics σ ∧ warnings σ' = warnings σ
  else metrics σ' = metrics σ ++ fallbackCount h r "not_found"
       ∧ warnings σ'
         = warnings σ ++ [mkLog LWarn "404 not found: %s %s"
                            [AStr (Method r); AStr (URL_Path r)]].
Proof.
  cbv zeta. unfold notFoundHandler.
  destruct (json_Marshal _) as [data|e].
  - apply (after_write data w StatusNotFound h r "not_found" "404 not found: %s %s" σ).
  - pose proof (after_write ("{" +:+ quoted "code" +:+ ": 404}") w StatusNotFound h r
                  "not_found" "404 not found: %s %s"
                  (logf LError "Failed to marshal 404 response: %v" [AErr (Some e)] σ))
      as P.
    cbv zeta in P. rewrite warnings_logf in P. simpl in P. rewrite app_nil_r in P.
    exact P.
Qed.

Lemma methodNotAllowedHandler_after_write (json_Marshal : GoValue -> Result string)
  h w r σ :
  let σ' := (methodNotAllowedHandler json_Marshal h w r σ).2 in
  if rw_broken w
  then metrics σ' = metrics σ ∧ warnings σ' = warnings σ
  else metrics σ' = metrics σ ++ fallbackCount h r "method_not_allowed"
       ∧ warnings σ'
         = warnings σ ++ [mkLog LWarn "405 method not allowed: %s %s"
                            [AStr (Method r); AStr (URL_Path r)]].
Proof.
  cbv zeta. unfold methodNotAllowedHandler.
  destruct (json_Marshal _) as [data|e].
  - apply (after_write data w StatusMethodNotAllowed h r "method_not_allowed"
             "405 method not allowed: %s %s" σ).
  - pose proof (after_write ("{" +:+ quoted "code" +:+ ": 405}") w StatusMethodNotAllowed
                  h r "method_not_allowed" "405 method not allowed: %s %s"
                  (logf LError "Failed to marshal 405 response: %v" [AErr (Some e)] σ))
      as P.
    cbv zeta in P. rewrite warnings_logf in P. simpl in P. rewrite app_nil_r in P.
    exact P.
Qed.

(** C9.  In [notFoundHandler] and [methodNotAllowedHandler], when the body
    write fails the error counter is not touched and no warning is logged;
    when it succeeds the counter labelled (method, path, reason) is
    incremented once (if the vector is set) and the warning is logged. *)
Theorem fallback_handlers_record_after_write
  (json_Marshal : GoValue -> Result string) h w r σ :
  let σ404 := (notFoundHandler json_Marshal h w r σ).2 in
  let σ405 := (methodNotAllowedHandler json_Marshal h w r σ).2 in
  if rw_broken w
  then (metrics σ404 = metrics σ ∧ warnings σ404 = warnings σ)
       ∧ (metrics σ405 = metrics σ ∧ warnings σ405 = warnings σ)
  else (metrics σ404 = metrics σ ++ fallbackCount h r "not_found"
        ∧ warnings σ404
          = warnings σ ++ [mkLog LWarn "404 not found: %s %s"
                             [AStr (Method r); AStr (URL_Path r)]])
       ∧ (metrics σ405 = metrics σ ++ fallbackCount h r "method_not_allowed"
          ∧ warnings σ405
            = warnings σ ++ [mkLog LWarn "405 method not allowed: %s %s"
                               [AStr (Method r); AStr (URL_Path r)]]).
Proof.
  cbv zeta.
  pose proof (notFoundHandler_after_write json_Marshal h w r σ) as P4.
  pose proof (methodNotAllowedHandler_after_write json_Marshal h w r σ) as P5.
  cbv zeta in P4, P5. destruct (rw_broken w); by split.
Qed.

(** C10.  [defaultErrorCode] is never zero, so [omitempty] does not drop the
    [code] field: the envelope of [EncodeErrorFunc] serializes to the JSON
    object with the member [code].  That object is the body [EncodeErrorFunc]
    writes on every path that serializes to JSON: on its encoding/json branch,
    taken when the negotiation reports [ok = false] or hands back no codec,
    and on its codec branch when the negotiated codec marshals the envelope as
    encoding/json does. *)
Theorem defaultErrorCode_keeps_code_field
  (FromError : option error -> option Error) (se : option Error) w r err σ :
  (defaultErrorCode se ≠ 0
   ∧ encoding_json (code_only (defaultErrorCode se)) = Ok (envelope (defaultErrorCode se)))
  ∧ (rw_broken w = false ->
     accept_ok r = false ∨ accept_codec r = None ->
     rw_body (EncodeErrorFunc encoding_json FromError w r err σ).1
     = rw_body w +:+ envelope (defaultErrorCode (FromError err)))
  ∧ (rw_broken w = false ->
     ∀ codec, accept_codec r = Some codec -> accept_ok r = true ->
     codec_Marshal codec (code_only (defaultErrorCode (FromError err)))
     = encoding_json (code_only (defaultErrorCode (FromError err))) ->
     rw_body (EncodeErrorFunc encoding_json FromError w r err σ).1
     = rw_body w +:+ envelope (defaultErrorCode (FromError err))).
Proof.
  split; [split|split].
  - apply defaultErrorCode_nonzero.
  - apply encoding_json_code_only, defaultErrorCode_nonzero.
  - intros Hb Hfallback. unfold EncodeErrorFunc, CodecForRequest.
    fold (code_only (defaultErrorCode (FromError err))).
    rewrite (encoding_json_code_only _ (defaultErrorCode_nonzero _)).
    destruct (accept_codec r) as [codec|], (accept_ok r);
      try (cbn [fst bytes_or_nil]; by apply answered_body).
    by destruct Hfallback.
  - intros Hb codec Hc Hok Hjson. unfold EncodeErrorFunc, CodecForRequest.
    fold (code_only (defaultErrorCode (FromError err))).
    rewrite Hc, Hok, Hjson, (encoding_json_code_only _ (defaultErrorCode_nonzero _)).
    pose proof (answered_body StatusOK (envelope (defaultErrorCode (FromError err))) w Hb)
      as Hbody.
    destruct (Write _ _) as [w' [wErr|]]; exact Hbody.
Qed.

(** Without an Accept header Kratos hands back its JSON codec with
    [ok = false]; with [Accept: application/json] it hands it back with
    [ok = true].  Either way the body is the object with the code. *)
Lemma defaultErrorCode_keeps_code_field_witness :
  rw_body (EncodeErrorFunc encoding_json kratos_FromError
             fresh_writer get_without_accept boom quiet).1
  = "{" +:+ quoted "code" +:+ ":500}"
  ∧ rw_body (EncodeErrorFunc encoding_json kratos_FromError
               fresh_writer get_as_json boom quiet).1
    = "{" +:+ quoted "code" +:+ ":500}".
Proof.
  split.
  - exact (proj1 (proj2 (defaultErrorCode_keeps_code_field kratos_FromError None
                           fresh_writer get_without_accept boom quiet))
             eq_refl (or_introl eq_refl)).
  - exact (proj2 (proj2 (defaultErrorCode_keeps_code_field kratos_FromError None
                           fresh_writer get_as_json boom quiet))
             eq_refl json_codec eq_refl eq_refl eq_refl).
Defined.

(** Scenarios 3 and 4: the fallback handlers. *)
Example scenario_not_found :
  notFoundHandler encoding_json (service_with None) fresh_writer get_unknown quiet
  = (mkWriter {[ "Content-Type" := "application/json" ]} (Some 404)
       ("{" +:+ quoted "code" +:+ ":404}") false,
     mkWorld [mkLog LWarn "404 not found: %s %s" [AStr "GET"; AStr "/unknown"]]
       [mkMetric ErrorCounter ["GET"; "/unknown"; "not_found"] Inc]).
Proof. reflexivity. Qed.

Example scenario_method_not_allowed :
  let w := (methodNotAllowedHandler encoding_json (service_with None) fresh_writer
              (mkRequest "DELETE" "/items" None false) quiet).1 in
  rw_status w = Some 405 ∧ rw_body w = "{" +:+ quoted "code" +:+ ":405}".
Proof. split; reflexivity. Qed.

(** A client that is gone: nothing is counted, no warning. *)
Example scenario_not_found_broken_pipe :
  (notFoundHandler encoding_json (service_with None)
     (mkWriter ∅ None EmptyString true) get_unknown quiet).2 = quiet.
Proof. reflexivity. Qed.

(** * Properties of the middleware *)

Section MiddlewareFacts.

Context `{Runtime}.

(** ** Hexadecimal identifiers *)

Lemma hex_byte_zero b :
  hexdigit (Byte.to_N b / 16) = "0"%char -> hexdigit (Byte.to_N b mod 16) = "0"%char ->
  b = x00.
Proof.
  intros E1 E2. destruct b; vm_compute in E1, E2; solve [reflexivity | discriminate].
Qed.

Lemma hex_zeros bs n :
  hex_EncodeToString bs = zeros n -> forallb (Byte.eqb x00) bs = true.
Proof.
  revert n. induction bs as [|b rest IH]; intros n E; [reflexivity|].
  destruct n as [|[|n]]; simpl in E; try discriminate E.
  injection E as E1 E2 E3.
  rewrite (hex_byte_zero b E1 E2). simpl. by apply (IH n).
Qed.

Lemma none_not_zeros n : "none" ≠ zeros n.
Proof. by destruct n. Qed.

Lemma ids_never_all_zero span n :
  (traceIDAndSpanIDFromSpan span).1 ≠ zeros n
  ∧ (traceIDAndSpanIDFromSpan span).2 ≠ zeros n.
Proof.
  unfold traceIDAndSpanIDFromSpan, IsValid, id_IsValid.
  destruct (forallb (Byte.eqb x00) (TraceID span)) eqn:Et;
    [ simpl; split; apply none_not_zeros |].
  destruct (forallb (Byte.eqb x00) (SpanID span)) eqn:Es;
    [ simpl; split; apply none_not_zeros |].
  simpl. split; intros E; apply hex_zeros in E; congruence.
Qed.

Lemma ids_of_invalid span :
  IsValid span = false -> traceIDAndSpanIDFromSpan span = ("none", "none").
Proof. unfold traceIDAndSpanIDFromSpan. by intros ->. Qed.

(** ** The reply header *)

Lemma setReplyHeaders_ids traceID spanID reply x :
  reply_header (setReplyHeaders traceID spanID reply x) !! "Trace-Id" = Some traceID
  ∧ reply_header (setReplyHeaders traceID spanID reply x) !! "Span-Id" = Some spanID.
Proof.
  unfold setReplyHeaders, ReplyHeader_Set, contentTypeKey.
  destruct reply; simpl; split;
    rewrite ?(lookup_insert_ne _ "Content-Type") by done;
    rewrite ?(lookup_insert_ne _ "Span-Id" "Trace-Id") by done;
    apply lookup_insert_eq.
Qed.

Lemma setReplyHeaders_out traceID spanID reply x :
  out (setReplyHeaders traceID spanID reply x) = out x.
Proof. unfold setReplyHeaders. by destruct reply. Qed.

(** C4.  Past the cancellation check and with a transport, both middlewares
    leave [Trace-Id] and [Span-Id] in the reply header, whatever the handler
    returns (an error included) and whatever it did to the header; the values
    are those of the span bound after extraction, both "none" when that span
    is invalid, and never a string of zeros. *)
Theorem trace_headers_on_every_exit service (handler : Handler) ctx req x tr :
  ctx_Err ctx = None -> ctx_transport ctx = Some tr ->
  let span := ctx_span (extractTraceContextFromRequest ctx (Some (tr_RequestHeader tr))) in
  let ids := traceIDAndSpanIDFromSpan span in
  let x1 := (TracerLogPack handler ctx req x).2 in
  let x2 := (TracerLogPackWithMetrics service handler ctx req x).2 in
  (reply_header x1 !! "Trace-Id" = Some ids.1 ∧ reply_header x1 !! "Span-Id" = Some ids.2)
  ∧ (reply_header x2 !! "Trace-Id" = Some ids.1 ∧ reply_header x2 !! "Span-Id" = Some ids.2)
  ∧ (IsValid span = false -> ids = ("none", "none"))
  ∧ (∀ n, ids.1 ≠ zeros n ∧ ids.2 ≠ zeros n).
Proof.
  intros He Ht. cbv zeta. split; [|split; [|split]].
  - unfold TracerLogPack. rewrite He, Ht.
    destruct (traceIDAndSpanIDFromSpan _) as [traceID spanID].
    destruct (handler _ _ _) as [[reply err] x']. cbn [fst snd].
    apply setReplyHeaders_ids.
  - unfold TracerLogPackWithMetrics. rewrite He, Ht.
    destruct (traceIDAndSpanIDFromSpan _) as [traceID spanID].
    destruct (handler _ _ _) as [[reply err] x']. cbn [fst snd].
    apply setReplyHeaders_ids.
  - apply ids_of_invalid.
  - intros n. apply ids_never_all_zero.
Qed.

(** C5.  When [ctx.Err()] is not nil on entry, both middlewares return
    [(nil, ctx.Err())] and leave the exchange as it was: the result does not
    depend on the handler, nothing is logged or recorded and no header is
    set. *)
Theorem cancelled_context_short_circuits service (handler : Handler) ctx req x e :
  ctx_Err ctx = Some e ->
  TracerLogPack handler ctx req x = ((PNil, Some e), x)
  ∧ TracerLogPackWithMetrics service handler ctx req x = ((PNil, Some e), x).
Proof.
  intros He. unfold TracerLogPack, TracerLogPackWithMetrics. by rewrite He.
Qed.

(** ** The size bound of the logged bodies *)

(** C6.  When protojson succeeds, [safeProtoToJSON] returns the placeholder
    with the byte count for a text of more than 1 MiB and the text itself
    otherwise.  When protojson fails it returns the error: the middleware
    logs a text that names the failure and still calls the handler. *)
Theorem safeProtoToJSON_size_bound service (handler : Handler) (msg : Msg) :
  (∀ body, protojson_Marshal msg = Ok body ->
     (maxBodySize < len body ->
      safeProtoToJSON msg
      = Ok ("<body too large, size: " +:+ pretty (len body) +:+ " bytes>"))
     ∧ (len body <= maxBodySize -> safeProtoToJSON msg = Ok body))
  ∧ (∀ e, protojson_Marshal msg = Err e ->
       safeProtoToJSON msg = Err e
       ∧ loggedBody "request" (PMessage msg)
         = "<failed to marshal request: " +:+ Error_String e +:+ ">"
       ∧ loggedBody "response" (PMessage msg)
         = "<failed to marshal response: " +:+ Error_String e +:+ ">"
       ∧ ∀ ctx x tr, ctx_Err ctx = None -> ctx_transport ctx = Some tr ->
           let ctx' := extractTraceContextFromRequest ctx (Some (tr_RequestHeader tr)) in
           (∃ x1, (TracerLogPack handler ctx (PMessage msg) x).1
                  = (handler ctx' (PMessage msg) x1).1)
           ∧ (∃ x1, (TracerLogPackWithMetrics service handler ctx (PMessage msg) x).1
                    = (handler ctx' (PMessage msg) x1).1)).
Proof.
  split.
  - intros body E. unfold safeProtoToJSON. rewrite E. split; intros Hlen.
    + by rewrite (proj2 (Z.gtb_lt _ _) Hlen).
    + destruct (len body >? maxBodySize) eqn:G; [|done].
      apply Z.gtb_lt in G. lia.
  - intros e E. split; [|split; [|split]].
    + unfold safeProtoToJSON. by rewrite E.
    + unfold loggedBody, safeProtoToJSON. by rewrite E.
    + unfold loggedBody, safeProtoToJSON. by rewrite E.
    + intros ctx x tr He Ht. cbv zeta. split.
      * unfold TracerLogPack. rewrite He, Ht.
        destruct (traceIDAndSpanIDFromSpan _) as [traceID spanID].
        eexists. destruct (handler _ _ _) as [[reply err] x'] eqn:Eh. cbn [fst].
        by rewrite Eh.
      * unfold TracerLogPackWithMetrics. rewrite He, Ht.
        destruct (traceIDAndSpanIDFromSpan _) as [traceID spanID].
        eexists. destruct (handler _ _ _) as [[reply err] x'] eqn:Eh. cbn [fst].
        by rewrite Eh.
Qed.

(** ** The trace bound in the context *)

Lemma extract_without_header ctx : extractTraceContextFromRequest ctx None = ctx.
Proof. reflexivity. Qed.

Lemma Extract_span ctx carrier :
  ctx_span (tracePropagator_Extract ctx carrier)
  = if IsValid (decodeTraceparent carrier) then decodeTraceparent carrier else ctx_span ctx.
Proof.
  unfold tracePropagator_Extract.
  by destruct (IsValid (decodeTraceparent carrier)), (decodeBaggage carrier).
Qed.

(** Headers that carry no valid [traceparent] leave the bound trace alone. *)
Lemma extract_keeps_span ctx carrier :
  IsValid (decodeTraceparent carrier) = false ->
  ctx_span (extractTraceContextFromRequest ctx (Some carrier)) = ctx_span ctx.
Proof. intros E. simpl. by rewrite Extract_span, E. Qed.

(** A valid trace is never replaced by an invalid one. *)
Lemma extract_stays_valid ctx reqHeader :
  IsValid (ctx_span ctx) = true ->
  IsValid (ctx_span (extractTraceContextFromRequest ctx reqHeader)) = true.
Proof.
  intros V. destruct reqHeader as [carrier|]; [|exact V].
  simpl. rewrite Extract_span. by destruct (IsValid (decodeTraceparent carrier)) eqn:E.
Qed.

(** Headers that carry a valid [traceparent] bind it, whatever was bound. *)
Lemma extract_binds_header_trace ctx carrier :
  IsValid (decodeTraceparent carrier) = true ->
  ctx_span (extractTraceContextFromRequest ctx (Some carrier)) = decodeTraceparent carrier.
Proof. intros E. simpl. by rewrite Extract_span, E. Qed.

(** ** The metric labels *)

Lemma recorded_with_refl P x : recorded_with P x x.
Proof. exists []. by rewrite app_nil_r. Qed.

Lemma recorded_with_trans P x y z :
  recorded_with P x y -> recorded_with P y z -> recorded_with P x z.
Proof.
  intros [l1 [E1 F1]] [l2 [E2 F2]]. exists (l1 ++ l2). split.
  - by rewrite E2, E1, app_assoc.
  - by apply Forall_app.
Qed.

Lemma recorded_with_xrecord (P : MetricEvent -> Prop) m labels op x :
  P (mkMetric m labels op) -> recorded_with P x (xrecord m labels op x).
Proof. intros HP. exists [mkMetric m labels op]. split; [done|]. by constructor. Qed.

Lemma recorded_with_same P x x' :
  metrics (out x') = metrics (out x) -> recorded_with P x x'.
Proof. intros E. exists []. by rewrite E, app_nil_r. Qed.

Lemma recorded_with_In P x x' e :
  recorded_with P x x' -> In e (metrics (out x)) -> In e (metrics (out x')).
Proof. intros [l [E _]] Hin. rewrite E. apply in_or_app. by left. Qed.

Lemma In_xrecord m labels op x : In (mkMetric m labels op) (metrics (out (xrecord m labels op x))).
Proof. simpl. apply in_or_app. right. by left. Qed.

Lemma observeSize_labelled m api p x :
  m = RequestSize ∨ m = ResponseSize ->
  recorded_with (labelled "POST" api) x (observeSize m api p x).
Proof.
  intros Hm. unfold observeSize. destruct p as [|msg|v]; try apply recorded_with_refl.
  destruct (proto_Marshal msg); [|apply recorded_with_refl].
  apply recorded_with_xrecord. by destruct Hm as [-> | ->].
Qed.

Lemma recordMetrics_labelled service api duration reply err x :
  let x' := recordMetrics service api duration reply err x in
  recorded_with (labelled "POST" api) x x'
  ∧ (enabled service requestDuration = true ->
     In (mkMetric RequestDuration ["POST"; api] (Observe duration)) (metrics (out x')))
  ∧ (enabled service requestCounter = true ->
     In (mkMetric RequestCounter ["POST"; api; outcome err] Inc) (metrics (out x')))
  ∧ (enabled service errorCounter = true -> err ≠ None ->
     In (mkMetric ErrorCounter ["POST"; api; "tracer_error"] Inc) (metrics (out x'))).
Proof.
  cbv zeta. unfold recordMetrics, enabled.
  destruct service as [s|];
    [|split; [apply recorded_with_refl | repeat split; intros; done]].
  set (x1 := if requestDuration s then _ else x).
  set (x2 := if requestCounter s then _ else x1).
  set (x3 := if responseSize s then _ else x2).
  set (x4 := match err with Some _ => _ | None => x3 end).
  assert (R1 : recorded_with (labelled "POST" api) x x1).
  { subst x1. destruct (requestDuration s); [|apply recorded_with_refl].
    by apply recorded_with_xrecord. }
  assert (R2 : recorded_with (labelled "POST" api) x1 x2).
  { subst x2. destruct (requestCounter s); [|apply recorded_with_refl].
    apply recorded_with_xrecord. unfold labelled. destruct err; simpl; auto. }
  assert (R3 : recorded_with (labelled "POST" api) x2 x3).
  { subst x3. destruct (responseSize s); [|apply recorded_with_refl].
    destruct reply; try apply recorded_with_refl; apply observeSize_labelled; auto. }
  assert (R4 : recorded_with (labelled "POST" api) x3 x4).
  { subst x4. destruct err; [|apply recorded_with_refl].
    destruct (errorCounter s); [|apply recorded_with_refl].
    by apply recorded_with_xrecord. }
  split; [|split; [|split]].
  - eauto using recorded_with_trans.
  - intros E. apply (recorded_with_In (labelled "POST" api) x1); [eauto using recorded_with_trans|].
    subst x1. rewrite E. apply In_xrecord.
  - intros E. apply (recorded_with_In (labelled "POST" api) x2); [eauto using recorded_with_trans|].
    subst x2. rewrite E. destruct err; apply In_xrecord.
  - intros E Herr. subst x4. destruct err; [|done]. rewrite E. apply In_xrecord.
Qed.

(** C7, amended.  Every metric update the metrics middleware makes around
    the handler call carries the fixed method label "POST" (not the method of
    the request) with the operation name; the in-flight gauge carries the
    operation name alone.  The duration histogram and the request counter
    (with the outcome) are updated whenever their vectors are set, the error
    counter with the reason "tracer_error" when the handler failed. *)
Theorem metrics_carry_fixed_method service (handler : Handler) ctx req x tr :
  ctx_Err ctx = None -> ctx_transport ctx = Some tr ->
  let api := tr_Operation tr in
  let ctx' := extractTraceContextFromRequest ctx (Some (tr_RequestHeader tr)) in
  let final := TracerLogPackWithMetrics service handler ctx req x in
  ∃ x1, let '(result, x2) := handler ctx' req x1 in
    final.1 = result
    ∧ recorded_with (labelled "POST" api) x x1
    ∧ recorded_with (labelled "POST" api) x2 final.2
    ∧ (enabled service requestDuration = true ->
       In (mkMetric RequestDuration ["POST"; api] (Observe (now x2 - now x)))
          (metrics (out final.2)))
    ∧ (enabled service requestCounter = true ->
       In (mkMetric RequestCounter ["POST"; api; outcome result.2] Inc)
          (metrics (out final.2)))
    ∧ (enabled service errorCounter = true -> result.2 ≠ None ->
       In (mkMetric ErrorCounter ["POST"; api; "tracer_error"] Inc)
          (metrics (out final.2))).
Proof.
  intros He Ht. cbv zeta. unfold TracerLogPackWithMetrics. rewrite He, Ht.
  destruct (traceIDAndSpanIDFromSpan _) as [traceID spanID].
  set (ctx' := extractTraceContextFromRequest ctx (Some (tr_RequestHeader tr))).
  set (api := tr_Operation tr).
  set (x0 := xlog LInfo httpRequestLogFormat _ x).
  set (xa := if enabled service inflightRequests then _ else x0).
  set (x1 := if enabled service requestSize then _ else xa).
  exists x1.
  destruct (handler ctx' req x1) as [[reply err] x2] eqn:Eh.
  set (xl := logResponse _ _ _ _ _ _ x2).
  pose proof (recordMetrics_labelled service api (now x2 - now x) reply err xl)
    as (Rm & Id & Ic & Ie).
  set (xm := recordMetrics service api (now x2 - now x) reply err xl) in *.
  set (xd := if enabled service inflightRequests then _ else xm).
  assert (R0 : recorded_with (labelled "POST" api) x x1).
  { apply (recorded_with_trans _ _ xa).
    - apply (recorded_with_trans _ _ x0); [by apply recorded_with_same|].
      subst xa. destruct (enabled service inflightRequests);
        [by apply recorded_with_xrecord | apply recorded_with_refl].
    - subst x1. destruct (enabled service requestSize);
        [apply observeSize_labelled; auto | apply recorded_with_refl]. }
  assert (Rl : recorded_with (labelled "POST" api) x2 xl).
  { apply recorded_with_same. subst xl. unfold logResponse. by destruct err. }
  assert (Rd : recorded_with (labelled "POST" api) xm xd).
  { subst xd. destruct (enabled service inflightRequests);
      [by apply recorded_with_xrecord | apply recorded_with_refl]. }
  assert (Rs : recorded_with (labelled "POST" api) xd
                 (setReplyHeaders traceID spanID reply xd)).
  { apply recorded_with_same. by rewrite setReplyHeaders_out. }
  cbn [fst snd].
  repeat split; try done.
  - eauto using recorded_with_trans.
  - intros E. eapply recorded_with_In; [exact Rs|].
    eapply recorded_with_In; [exact Rd|]. by apply Id.
  - intros E. eapply recorded_with_In; [exact Rs|].
    eapply recorded_with_In; [exact Rd|]. by apply Ic.
  - intros E Herr. eapply recorded_with_In; [exact Rs|].
    eapply recorded_with_In; [exact Rd|]. by apply Ie.
Qed.

End MiddlewareFacts.

(** A text of 1 MiB and one byte is replaced, a text of 1 MiB is kept. *)
Lemma safeProtoToJSON_size_bound_witness :
  (maxBodySize < len body_over_1MiB
   ∧ safeProtoToJSON (H := text_runtime) body_over_1MiB
     = Ok ("<body too large, size: " +:+ pretty (len body_over_1MiB) +:+ " bytes>"))
  ∧ (len body_1MiB <= maxBodySize
     ∧ safeProtoToJSON (H := text_runtime) body_1MiB = Ok body_1MiB).
Proof.
  assert (Hgt : maxBodySize < len body_over_1MiB) by (vm_compute; reflexivity).
  assert (Hle : len body_1MiB <= maxBodySize) by (vm_compute; discriminate).
  split; (split; [assumption|]).
  - exact (proj1 (proj1 (safeProtoToJSON_size_bound (H := text_runtime) None greet
                           body_over_1MiB) body_over_1MiB eq_refl) Hgt).
  - exact (proj2 (proj1 (safeProtoToJSON_size_bound (H := text_runtime) None greet
                           body_1MiB) body_1MiB eq_refl) Hle).
Defined.

Example body_over_1MiB_logged :
  safeProtoToJSON (H := text_runtime) body_over_1MiB
  = Ok "<body too large, size: 1048577 bytes>".
Proof. vm_compute. reflexivity. Qed.

(** A handler that fails, on a request that carries a [traceparent]. *)
Lemma trace_headers_on_every_exit_witness :
  (TracerLogPack refuse ctx_unbound PNil idle).1 = (PNil, Some (PlainError "permission denied"))
  ∧ reply_header (TracerLogPack refuse ctx_unbound PNil idle).2 !! "Trace-Id"
    = Some "4bf92f3577b34da6a3ce929d0e0e4736"
  ∧ reply_header (TracerLogPack refuse ctx_unbound PNil idle).2 !! "Span-Id"
    = Some "00f067aa0ba902b7".
Proof.
  split; [reflexivity|].
  exact (proj1 (trace_headers_on_every_exit (H := text_runtime) None refuse
                  ctx_unbound PNil idle get_greeter eq_refl eq_refl)).
Defined.

(** Scenario 2 of the specification, the headers: no trace header on the
    request, a failing handler; both headers are "none". *)
Example scenario_no_trace_header :
  let x := (TracerLogPack (H := text_runtime) refuse
              (mkContext None (Some (mkTransport "http://greeter:8000"
                                       "/helloworld.Greeter/SayHello" ∅ "GET"))
                 noSpan None) PNil idle).2 in
  reply_header x !! "Trace-Id" = Some "none" ∧ reply_header x !! "Span-Id" = Some "none".
Proof. split; reflexivity. Qed.

(** A cancelled request through both middlewares. *)
Lemma cancelled_context_short_circuits_witness :
  TracerLogPack greet ctx_cancelled (PMessage "{}") idle
  = ((PNil, Some (PlainError "context canceled")), idle)
  ∧ TracerLogPackWithMetrics (Some (service_with None)) greet ctx_cancelled
      (PMessage "{}") idle
    = ((PNil, Some (PlainError "context canceled")), idle).
Proof.
  exact (cancelled_context_short_circuits (H := text_runtime) (Some (service_with None))
           greet ctx_cancelled (PMessage "{}") idle _ eq_refl).
Defined.

(** C7 as stated fails: for a GET request the request counter is labelled
    "POST". *)
Lemma request_counter_ignores_request_method :
  let final := TracerLogPackWithMetrics (H := text_runtime) (Some (service_with None))
                 greet ctx_unbound (PMessage "{}") idle in
  tr_RequestMethod get_greeter = "GET"
  ∧ In (mkMetric RequestCounter ["POST"; "/helloworld.Greeter/SayHello"; "success"] Inc)
       (metrics (out final.2))
  ∧ ¬ Forall (labelled "GET" "/helloworld.Greeter/SayHello") (metrics (out final.2)).
Proof.
  cbv zeta.
  assert (Hin : In (mkMetric RequestCounter
                      ["POST"; "/helloworld.Greeter/SayHello"; "success"] Inc)
                  (metrics (out (TracerLogPackWithMetrics (H := text_runtime)
                                   (Some (service_with None)) greet ctx_unbound
                                   (PMessage "{}") idle).2))).
  { vm_compute. auto 10. }
  split; [reflexivity|]. split; [exact Hin|].
  intros HF. rewrite List.Forall_forall in HF. specialize (HF _ Hin).
  unfold labelled in HF. simpl in HF. destruct HF as [E|E]; discriminate E.
Qed.

(** The request counter of that GET request, read off the theorem. *)
Lemma metrics_carry_fixed_method_witness :
  In (mkMetric RequestCounter ["POST"; "/helloworld.Greeter/SayHello"; "success"] Inc)
     (metrics (out (TracerLogPackWithMetrics (H := text_runtime) (Some (service_with None))
                      greet ctx_unbound (PMessage "{}") idle).2)).
Proof.
  destruct (metrics_carry_fixed_method (H := text_runtime) (Some (service_with None))
              greet ctx_unbound (PMessage "{}") idle get_greeter eq_refl eq_refl)
    as (x1 & Hx).
  cbv beta iota delta [greet] in Hx.
  destruct Hx as (_ & _ & _ & _ & Hc & _).
  exact (Hc eq_refl).
Defined.

(** C8, at two failing inputs.  The context carries a valid trace bound
    upstream; the request carries a valid [traceparent].  After
    [extractTraceContextFromRequest] the context is bound to the span of the
    header: another trace in the first case, the caller's span instead of the
    server's own in the second.  The comment on the function says otherwise
    ("if the upstream middleware already set a valid span, this is a
    no-op"). *)
Theorem extract_replaces_bound_trace :
  (traceIDAndSpanIDFromSpan (ctx_span ctx_bound)
   = ("0af7651916cd43dd8448eb211c80319c", "b7ad6b7169203331")
   ∧ traceIDAndSpanIDFromSpan
       (ctx_span (extractTraceContextFromRequest (H := text_runtime) ctx_bound
                    (Some upstream_headers)))
     = ("4bf92f3577b34da6a3ce929d0e0e4736", "00f067aa0ba902b7"))
  ∧ (traceIDAndSpanIDFromSpan (ctx_span ctx_server_span)
     = ("4bf92f3577b34da6a3ce929d0e0e4736", "53995c3f42cd8ad8")
     ∧ traceIDAndSpanIDFromSpan
         (ctx_span (extractTraceContextFromRequest (H := text_runtime) ctx_server_span
                      (Some upstream_headers)))
       = ("4bf92f3577b34da6a3ce929d0e0e4736", "00f067aa0ba902b7")).
Proof. repeat split; reflexivity. Qed.

(** * Further properties of the encoders and the fallback handlers *)

Lemma Write_header data w :
  rw_header (Write data w).1 = rw_header w.
Proof. unfold Write, WriteHeader. by destruct (rw_status w), (rw_broken w). Qed.

Lemma Write_fresh_status data w :
  rw_status w = None -> rw_status (Write data w).1 = Some StatusOK.
Proof.
  intros Hs. unfold Write, WriteHeader. rewrite Hs. simpl. by destruct (rw_broken w).
Qed.

Lemma Write_pair data w : Write data w = ((Write data w).1, (Write data w).2).
Proof. by destruct (Write data w). Qed.

(** X1.  [ResponseEncoder] on a fresh writer: it returns nil exactly when
    the serializer of the request succeeded and the writer took the bytes,
    and then the body is the serializer's text; the status is 200 when the
    serializer succeeded and 500 when it failed; whenever it returns an error
    nothing was written. *)
Theorem ResponseEncoder_outcome (json_Marshal : GoValue -> Result string) w r data :
  rw_status w = None ->
  let encoded := negotiated json_Marshal r (Response_value (mkResponse 200 "success" data)) in
  let w' := (ResponseEncoder json_Marshal w r data).1 in
  let err := (ResponseEncoder json_Marshal w r data).2 in
  (err = None ↔ ∃ body, encoded = Ok body ∧ rw_broken w = false
                        ∧ rw_body w' = rw_body w +:+ body)
  ∧ rw_status w' = Some (match encoded with
                         | Ok _ => StatusOK
                         | Err _ => StatusInternalServerError
                         end)
  ∧ (err ≠ None -> rw_body w' = rw_body w).
Proof.
  intros Hs. cbv zeta.
  assert (Hgen : ∀ (encoded : Result string) v,
             rw_status v = None -> rw_broken v = rw_broken w -> rw_body v = rw_body w ->
             let answer := match encoded with
                           | Err e => (WriteHeader StatusInternalServerError w, Some e)
                           | Ok body => Write body v
                           end in
             (answer.2 = None ↔ ∃ body, encoded = Ok body ∧ rw_broken w = false
                                        ∧ rw_body answer.1 = rw_body w +:+ body)
             ∧ rw_status answer.1 = Some (match encoded with
                                          | Ok _ => StatusOK
                                          | Err _ => StatusInternalServerError
                                          end)
             ∧ (answer.2 ≠ None -> rw_body answer.1 = rw_body w)).
  { intros [body|e] v Hvs Hvb Hvd; cbv zeta.
    - rewrite Write_error, Write_body, Hvb, Hvd, (Write_fresh_status _ _ Hvs).
      destruct (rw_broken w).
      + split; [split; [done | by intros (? & _ & [=] & _)] | done].
      + split; [split; [by exists body | done] | done].
    - unfold WriteHeader. rewrite Hs. cbn [fst snd rw_status rw_body].
      split; [split; [done | by intros (? & [=] & _)] | done]. }
  unfold ResponseEncoder, negotiated.
  destruct (CodecForRequest r "Accept") as [[codec|] []]; by apply Hgen.
Qed.

Lemma ResponseEncoder_outcome_witness :
  rw_status (ResponseEncoder encoding_json broken_writer get_unknown VNil).1 = Some 200
  ∧ rw_body (ResponseEncoder encoding_json broken_writer get_unknown VNil).1
    = EmptyString.
Proof.
  destruct (ResponseEncoder_outcome encoding_json broken_writer get_unknown VNil eq_refl)
    as (_ & Hstatus & Hbody).
  split; [exact Hstatus | apply Hbody; by vm_compute].
Defined.



(** X3.  The content type of the answers.  [ResponseEncoder] leaves the
    header alone when a codec is negotiated, and sets [application/json] when
    it falls back to encoding/json and that succeeds.  [EncodeErrorFunc] sets
    [application/json] on every body it writes, the text of a negotiated
    codec included; it sets nothing when that codec fails. *)
Theorem content_type_of_answers (json_Marshal : GoValue -> Result string)
  (FromError : option error -> option Error) w r data err σ :
  let w1 := (ResponseEncoder json_Marshal w r data).1 in
  let w2 := (EncodeErrorFunc json_Marshal FromError w r err σ).1 in
  let res := Response_value (mkResponse 200 "success" data) in
  let code := defaultErrorCode (FromError err) in
  match CodecForRequest r "Accept" with
  | (Some codec, true) =>
      rw_header w1 = rw_header w
      ∧ rw_header w2 = match codec_Marshal codec (code_only code) with
                       | Ok _ => <["Content-Type" := "application/json"]> (rw_header w)
                       | Err _ => rw_header w
                       end
  | _ =>
      rw_header w1 = match json_Marshal res with
                     | Ok _ => <["Content-Type" := "application/json"]> (rw_header w)
                     | Err _ => rw_header w
                     end
      ∧ rw_header w2 = <["Content-Type" := "application/json"]> (rw_header w)
  end.
Proof.
  cbv zeta. unfold ResponseEncoder, EncodeErrorFunc.
  fold (code_only (defaultErrorCode (FromError err))).
  assert (Hwh : ∀ c v, rw_header (WriteHeader c v) = rw_header v).
  { intros c v. unfold WriteHeader. by destruct (rw_status v). }
  destruct (CodecForRequest r "Accept") as [[codec|] []]; split.
  all: repeat match goal with
         | |- context [match ?m with Ok _ => _ | Err _ => _ end] =>
             destruct m as [body|e]
         end.
  all: try (rewrite (Write_pair body); destruct (Write body _).2).
  all: cbn [fst]; by rewrite ?Write_header, ?Hwh.
Qed.

(** X4.  [enhancedErrorEncoder] counts the error once, labelled with the
    method, the path and "server_error", before it writes: the count does not
    depend on the serializer or on the writer.  [EncodeErrorFunc] never
    touches a metric. *)
Theorem error_encoders_counting (json_Marshal : GoValue -> Result string)
  (FromError : option error -> option Error) h w r err σ :
  metrics (enhancedErrorEncoder json_Marshal FromError h w r err σ).2
  = metrics σ ++ (if errorCounter h
                  then [mkMetric ErrorCounter [Method r; URL_Path r; "server_error"] Inc]
                  else [])
  ∧ metrics (EncodeErrorFunc json_Marshal FromError w r err σ).2 = metrics σ.
Proof.
  split.
  - unfold enhancedErrorEncoder.
    destruct (json_Marshal _), (errorCounter h); cbn [snd]; simpl;
      by rewrite ?app_nil_r.
  - unfold EncodeErrorFunc.
    destruct (CodecForRequest r "Accept") as [[codec|] []]; try done.
    destruct (codec_Marshal codec _); [|done].
    by destruct (Write _ _) as [w' [e|]].
Qed.

(** X5.  The answers of the error encoders depend on the error through its
    code alone: two errors that resolve to the same code get the same
    response, the same log lines and the same metric updates, whatever their
    reason and message. *)
Theorem error_text_never_leaks (json_Marshal : GoValue -> Result string)
  (FromError : option error -> option Error) h w r err err' σ :
  (resolveCode h (FromError err) = resolveCode h (FromError err') ->
   enhancedErrorEncoder json_Marshal FromError h w r err σ
   = enhancedErrorEncoder json_Marshal FromError h w r err' σ)
  ∧ (defaultErrorCode (FromError err) = defaultErrorCode (FromError err') ->
     EncodeErrorFunc json_Marshal FromError w r err σ
     = EncodeErrorFunc json_Marshal FromError w r err' σ).
Proof.
  split; intros E.
  - unfold enhancedErrorEncoder. by rewrite E.
  - unfold EncodeErrorFunc. by rewrite E.
Qed.

Lemma error_text_never_leaks_witness :
  enhancedErrorEncoder encoding_json kratos_FromError (service_with None) fresh_writer
    get_unknown (Some (KratosError (mkError 403 "FORBIDDEN" "tenant 17 is locked"))) quiet
  = enhancedErrorEncoder encoding_json kratos_FromError (service_with None) fresh_writer
      get_unknown (Some (KratosError (mkError 403 "QUOTA" "plan exhausted"))) quiet.
Proof.
  exact (proj1 (error_text_never_leaks encoding_json kratos_FromError (service_with None)
                  fresh_writer get_unknown
                  (Some (KratosError (mkError 403 "FORBIDDEN" "tenant 17 is locked")))
                  (Some (KratosError (mkError 403 "QUOTA" "plan exhausted"))) quiet)
           eq_refl).
Defined.

(** X6.  The answers of the fallback handlers.  The response does not depend
    on the request, the service or the logs: no method, path or other request
    text reaches the client.  With encoding/json on a fresh writer that takes
    the bytes it is status 404 (405), content type [application/json] and the
    JSON object with the one member [code]. *)
Theorem fallback_responses (json_Marshal : GoValue -> Result string) h h' w r r' σ σ' :
  ((notFoundHandler json_Marshal h w r σ).1 = (notFoundHandler json_Marshal h' w r' σ').1
   ∧ (methodNotAllowedHandler json_Marshal h w r σ).1
     = (methodNotAllowedHandler json_Marshal h' w r' σ').1)
  ∧ (rw_status w = None -> rw_broken w = false ->
     (notFoundHandler encoding_json h w r σ).1
     = {| rw_header := <["Content-Type" := "application/json"]> (rw_header w);
          rw_status := Some StatusNotFound;
          rw_body := rw_body w +:+ envelope 404; rw_broken := false |}
     ∧ (methodNotAllowedHandler encoding_json h w r σ).1
       = {| rw_header := <["Content-Type" := "application/json"]> (rw_header w);
            rw_status := Some StatusMethodNotAllowed;
            rw_body := rw_body w +:+ envelope 405; rw_broken := false |}).
Proof.
  split; [split|].
  - unfold notFoundHandler. destruct (json_Marshal _) as [data|e];
      rewrite (Write_pair _ (WriteHeader _ _)); by destruct (Write _ _).2.
  - unfold methodNotAllowedHandler. destruct (json_Marshal _) as [data|e];
      rewrite (Write_pair _ (WriteHeader _ _)); by destruct (Write _ _).2.
  - intros Hs Hb. unfold notFoundHandler, methodNotAllowedHandler.
    rewrite !encoding_json_code_map.
    unfold Write, WriteHeader, Header_Set. cbn [rw_status rw_broken rw_header rw_body].
    rewrite Hs. cbn [rw_status rw_broken rw_header rw_body]. by rewrite Hb.
Qed.

Lemma fallback_responses_witness :
  (notFoundHandler encoding_json (service_with None) fresh_writer get_unknown quiet).1
  = mkWriter {[ "Content-Type" := "application/json" ]} (Some 404) (envelope 404) false
  ∧ (methodNotAllowedHandler encoding_json (service_with None) fresh_writer get_unknown
       quiet).1
    = mkWriter {[ "Content-Type" := "application/json" ]} (Some 405) (envelope 405) false.
Proof.
  exact (proj2 (fallback_responses encoding_json (service_with None) (service_with None)
                  fresh_writer get_unknown get_unknown quiet quiet) eq_refl eq_refl).
Defined.

(** * Further properties of the middleware *)

(** ** Request headers *)

(** X7.  [getClientIP]: a non-empty [X-Forwarded-For] wins; an absent or
    empty one gives way to a non-empty [X-Real-IP]; without either the
    answer is "unknown".  The answer is never the empty string. *)
Theorem getClientIP_precedence (header : gmap string string) :
  (∀ ip, header !! "X-Forwarded-For" = Some ip -> ip ≠ EmptyString ->
         getClientIP header = ip)
  ∧ (header !! "X-Forwarded-For" = None ∨ header !! "X-Forwarded-For" = Some EmptyString ->
     (∀ ip, header !! "X-Real-IP" = Some ip -> ip ≠ EmptyString ->
            getClientIP header = ip)
     ∧ (header !! "X-Real-IP" = None ∨ header !! "X-Real-IP" = Some EmptyString ->
        getClientIP header = "unknown"))
  ∧ getClientIP header ≠ EmptyString.
Proof.
  unfold getClientIP, Header_Get. split; [|split].
  - intros ip -> Hip. simpl. by rewrite decide_False.
  - intros Hf.
    assert (default EmptyString (header !! "X-Forwarded-For") = EmptyString) as ->
      by (by destruct Hf as [-> | ->]).
    rewrite decide_True by done. split.
    + intros ip -> Hip. simpl. by rewrite decide_False.
    + intros Hr.
      assert (default EmptyString (header !! "X-Real-IP") = EmptyString) as ->
        by (by destruct Hr as [-> | ->]).
      by rewrite decide_True.
  - repeat case_decide; done.
Qed.

Lemma getClientIP_precedence_witness :
  getClientIP forwarded_headers = "203.0.113.9".
Proof.
  exact (proj1 (proj1 (proj2 (getClientIP_precedence forwarded_headers))
                  (or_intror eq_refl)) "203.0.113.9" eq_refl ltac:(discriminate)).
Defined.

Lemma collect_lookup (get : string -> string) (keys : list string)
  (start : gmap string string) (k : string) :
  fold_left (fun headers key => <[key := get key]> headers) keys start !! k
  = if decide (k ∈ keys) then Some (get k) else start !! k.
Proof.
  revert start. induction keys as [|key keys IH]; intros start.
  - cbn [fold_left]. destruct (decide (k ∈ [])) as [Hin|_]; [|done].
    by apply not_elem_of_nil in Hin.
  - cbn [fold_left]. rewrite IH.
    destruct (decide (k ∈ keys)) as [Hin|Hnin], (decide (k ∈ key :: keys)) as [Hin'|Hnin'];
      try done.
    + exfalso. apply Hnin'. by right.
    + apply elem_of_cons in Hin' as [->|?]; [apply lookup_insert_eq | done].
    + apply lookup_insert_ne. intros ->. apply Hnin'. by left.
Qed.

(** X8.  The loop that collects the headers for a log line, for whatever
    [Keys()] lists and [Get] returns: the collected map holds one entry for
    each key listed, with the value [Get] returns for that key, and no other
    key; the order of the keys and a key listed twice do not matter.  So a
    header with several values is logged with the one value [Get] gives. *)
Theorem collectHeaders_keys_and_values (keys : list string) (get : string -> string)
  (h : gmap string string) (k : string) :
  collectLoop keys get !! k = (if decide (k ∈ keys) then Some (get k) else None)
  ∧ collectHeaders h = collectLoop (Header_Keys h) (Header_Get h).
Proof.
  split; [|reflexivity].
  unfold collectLoop. rewrite collect_lookup.
  destruct (decide (k ∈ keys)); [done | apply lookup_empty].
Qed.

(** ** Trace identities *)

Lemma hex_not_none bs : hex_EncodeToString bs ≠ "none".
Proof.
  destruct bs as [|b rest]; [done|].
  intros E. destruct b; vm_compute in E; discriminate E.
Qed.

Lemma hex_cons b rest :
  hex_EncodeToString (b :: rest)
  = String (hexdigit (Byte.to_N b / 16))
      (String (hexdigit (Byte.to_N b mod 16)) (hex_EncodeToString rest)).
Proof. reflexivity. Qed.

Lemma hex_length bs :
  String.length (hex_EncodeToString bs) = (2 * length bs)%nat.
Proof.
  induction bs as [|b rest IH]; [done|].
  rewrite hex_cons. cbn [String.length length]. rewrite IH. lia.
Qed.

(** X9.  [traceIDAndSpanIDFromSpan] answers the pair of sentinels exactly
    for the invalid spans, so a span with one zero id shows neither id; the
    two answers are sentinels together or not at all; for a valid span they
    are two hexadecimal digits per byte of the id. *)
Theorem trace_ids_sentinel (span : SpanContext) :
  let ids := traceIDAndSpanIDFromSpan span in
  (ids = ("none", "none") ↔ IsValid span = false)
  ∧ (ids.1 = "none" ↔ ids.2 = "none")
  ∧ (IsValid span = true ->
     String.length ids.1 = (2 * length (TraceID span))%nat
     ∧ String.length ids.2 = (2 * length (SpanID span))%nat).
Proof.
  cbv zeta. unfold traceIDAndSpanIDFromSpan, traceIDNone, spanIDNone.
  destruct (IsValid span); cbn [fst snd].
  - split; [|split].
    + split; [|done]. intros [= E _]. by apply hex_not_none in E.
    + split; intros E; by apply hex_not_none in E.
    + intros _. split; apply hex_length.
  - by repeat split.
Qed.

Section MoreMiddlewareFacts.

Context `{Runtime}.

(** X10.  [extractTraceContextFromRequest] is idempotent for a given header:
    extracting twice is extracting once.  It never changes the cancellation
    state or the transport of the context, and it returns the context itself
    when the header is nil or carries neither a valid [traceparent] nor a
    baggage. *)
Theorem extract_idempotent (ctx : Context) (reqHeader : option (gmap string string)) :
  let ctx' := extractTraceContextFromRequest ctx reqHeader in
  extractTraceContextFromRequest ctx' reqHeader = ctx'
  ∧ ctx_Err ctx' = ctx_Err ctx
  ∧ ctx_transport ctx' = ctx_transport ctx
  ∧ (reqHeader = None
     ∨ (∃ h, reqHeader = Some h ∧ IsValid (decodeTraceparent h) = false
             ∧ decodeBaggage h = None) ->
     ctx' = ctx).
Proof.
  cbv zeta. destruct reqHeader as [h|]; simpl.
  - unfold tracePropagator_Extract.
    destruct (IsValid (decodeTraceparent h)) eqn:V, (decodeBaggage h) eqn:B;
      repeat split; try done.
    all: intros [[=] | (h' & [= <-] & V' & B')]; congruence.
  - by repeat split.
Qed.

(** Both middlewares answer with the identity of the span bound after
    extraction. *)
Lemma middleware_reply_ids service (handler : Handler) ctx req x tr :
  ctx_Err ctx = None -> ctx_transport ctx = Some tr ->
  let ids := traceIDAndSpanIDFromSpan
               (ctx_span (extractTraceContextFromRequest ctx
                            (Some (tr_RequestHeader tr)))) in
  let x1 := (TracerLogPack handler ctx req x).2 in
  let x2 := (TracerLogPackWithMetrics service handler ctx req x).2 in
  (reply_header x1 !! "Trace-Id" = Some ids.1 ∧ reply_header x1 !! "Span-Id" = Some ids.2)
  ∧ (reply_header x2 !! "Trace-Id" = Some ids.1
     ∧ reply_header x2 !! "Span-Id" = Some ids.2).
Proof.
  intros He Ht. cbv zeta. split.
  - unfold TracerLogPack. rewrite He, Ht.
    destruct (traceIDAndSpanIDFromSpan _) as [traceID spanID].
    destruct (handler _ _ _) as [[reply err] x']. cbn [fst snd].
    apply setReplyHeaders_ids.
  - unfold TracerLogPackWithMetrics. rewrite He, Ht.
    destruct (traceIDAndSpanIDFromSpan _) as [traceID spanID].
    destruct (handler _ _ _) as [[reply err] x']. cbn [fst snd].
    apply setReplyHeaders_ids.
Qed.

(** X11.  Which trace the response names.  When the request header decodes
    to a valid span, [Trace-Id] and [Span-Id] are the hexadecimal ids of that
    span, whatever was bound in the context.  Otherwise they are the ids of
    the valid span bound in the context, and "none" when there is none. *)
Theorem response_trace_identity service (handler : Handler) ctx req x tr :
  ctx_Err ctx = None -> ctx_transport ctx = Some tr ->
  let sent := decodeTraceparent (tr_RequestHeader tr) in
  let bound := ctx_span ctx in
  let named := if IsValid sent then sent else bound in
  let ids := if IsValid named
             then (hex_EncodeToString (TraceID named), hex_EncodeToString (SpanID named))
             else ("none", "none") in
  let x1 := (TracerLogPack handler ctx req x).2 in
  let x2 := (TracerLogPackWithMetrics service handler ctx req x).2 in
  (reply_header x1 !! "Trace-Id" = Some ids.1 ∧ reply_header x1 !! "Span-Id" = Some ids.2)
  ∧ (reply_header x2 !! "Trace-Id" = Some ids.1
     ∧ reply_header x2 !! "Span-Id" = Some ids.2).
Proof.
  intros He Ht. cbv zeta.
  pose proof (middleware_reply_ids service handler ctx req x tr He Ht) as Hids.
  cbv zeta in Hids. simpl in Hids. rewrite Extract_span in Hids. exact Hids.
Qed.

(** The plain middleware is the metrics middleware without a service. *)
Lemma plain_is_metrics_None (handler : Handler) ctx req x :
  TracerLogPack handler ctx req x = TracerLogPackWithMetrics None handler ctx req x.
Proof.
  unfold TracerLogPackWithMetrics, TracerLogPack.
  destruct (ctx_Err ctx); [done|]. destruct (ctx_transport ctx) as [tr|]; [|done].
  destruct (traceIDAndSpanIDFromSpan _) as [traceID spanID]. cbn [enabled].
  by destruct (handler _ _ _) as [[reply err] x'].
Qed.

(** X12.  Without a metric vector (a nil service or a service whose vectors
    are all nil) the metrics middleware is the plain middleware: same result,
    same log lines, same reply header, no metric update. *)
Theorem metrics_variant_without_vectors service (handler : Handler) ctx req x :
  no_vectors service = true ->
  TracerLogPackWithMetrics service handler ctx req x = TracerLogPack handler ctx req x.
Proof.
  intros Hv. unfold TracerLogPackWithMetrics, TracerLogPack.
  destruct (ctx_Err ctx); [done|]. destruct (ctx_transport ctx) as [tr|]; [|done].
  destruct (traceIDAndSpanIDFromSpan _) as [traceID spanID].
  assert (Hoff : ∀ x0 d reply err,
             recordMetrics service (tr_Operation tr) d reply err x0 = x0
             ∧ enabled service inflightRequests = false
             ∧ enabled service requestSize = false).
  { intros x0 d reply err. unfold no_vectors, enabled, recordMetrics in *.
    destruct service as [s|]; [|done].
    destruct (errorCounter s), (requestCounter s), (requestDuration s),
      (requestSize s), (responseSize s), (inflightRequests s); try discriminate Hv.
    by destruct err. }
  destruct (Hoff x 0 PNil None) as (_ & -> & ->).
  destruct (handler _ _ _) as [[reply err] x'].
  by rewrite (proj1 (Hoff _ _ _ _)).
Qed.

(** X13.  Without a transport in the context both middlewares log one
    warning and hand over to the handler, with the context as it came: the
    result and the exchange are the handler's, no header is set and no
    metric is updated, whatever vectors the service has. *)
Theorem without_transport service (handler : Handler) ctx req x :
  ctx_Err ctx = None -> ctx_transport ctx = None ->
  let warned :=
    xlog LWarn "Failed to get transport from context, proceeding without tracing" [] x in
  TracerLogPack handler ctx req x = handler ctx req warned
  ∧ TracerLogPackWithMetrics service handler ctx req x = handler ctx req warned
  ∧ reply_header warned = reply_header x
  ∧ metrics (out warned) = metrics (out x).
Proof.
  intros He Ht. cbv zeta. unfold TracerLogPack, TracerLogPackWithMetrics.
  by rewrite He, Ht.
Qed.

End MoreMiddlewareFacts.

Lemma response_trace_identity_witness :
  reply_header (TracerLogPack greet ctx_server_span (PMessage "{}") idle).2 !! "Trace-Id"
  = Some "4bf92f3577b34da6a3ce929d0e0e4736"
  ∧ reply_header (TracerLogPack greet ctx_server_span (PMessage "{}") idle).2 !! "Span-Id"
    = Some "00f067aa0ba902b7".
Proof.
  exact (proj1 (response_trace_identity (H := text_runtime) None greet ctx_server_span
                  (PMessage "{}") idle get_greeter eq_refl eq_refl)).
Defined.

Lemma metrics_variant_without_vectors_witness :
  TracerLogPackWithMetrics (H := text_runtime)
    (Some (mkService None false false false false false false)) greet ctx_unbound
    (PMessage "{}") idle
  = TracerLogPack greet ctx_unbound (PMessage "{}") idle.
Proof.
  exact (metrics_variant_without_vectors (H := text_runtime)
           (Some (mkService None false false false false false false)) greet ctx_unbound
           (PMessage "{}") idle eq_refl).
Defined.

Lemma without_transport_witness :
  TracerLogPackWithMetrics (H := text_runtime) (Some (service_with None)) greet ctx_plain
    (PMessage "{}") idle
  = ((PMessage "{}", None),
     mkExchange ∅ 5
       (mkWorld [mkLog LWarn
                   "Failed to get transport from context, proceeding without tracing" []]
          [])).
Proof.
  exact (proj1 (proj2 (without_transport (H := text_runtime) (Some (service_with None))
                         greet ctx_plain (PMessage "{}") idle eq_refl eq_refl))).
Defined.

Section MiddlewareAnatomy.

Context `{Runtime}.

Lemma observeSize_events m api p x :
  metrics (out (observeSize m api p x)) = metrics (out x) ++ sizeEvents m api p
  ∧ logs (out (observeSize m api p x)) = logs (out x)
  ∧ reply_header (observeSize m api p x) = reply_header x
  ∧ now (observeSize m api p x) = now x.
Proof.
  unfold observeSize, sizeEvents. destruct p as [|msg|v]; simpl; rewrite ?app_nil_r; try done.
  destruct (proto_Marshal msg); simpl; by rewrite ?app_nil_r.
Qed.

Lemma recordMetrics_events service api duration reply err x :
  let x' := recordMetrics service api duration reply err x in
  metrics (out x')
  = metrics (out x)
    ++ (if enabled service requestDuration
        then [mkMetric RequestDuration ["POST"; api] (Observe duration)] else [])
    ++ (if enabled service requestCounter
        then [mkMetric RequestCounter ["POST"; api; outcome err] Inc] else [])
    ++ (if enabled service responseSize then sizeEvents ResponseSize api reply else [])
    ++ (if enabled service errorCounter && bool_decide (err ≠ None)
        then [mkMetric ErrorCounter ["POST"; api; "tracer_error"] Inc] else [])
  ∧ logs (out x') = logs (out x)
  ∧ reply_header x' = reply_header x
  ∧ now x' = now x.
Proof.
  cbv zeta. unfold recordMetrics, enabled.
  destruct service as [s|]; [|simpl; by rewrite app_nil_r].
  set (x1 := if requestDuration s then _ else x).
  set (x2 := if requestCounter s then _ else x1).
  set (x3 := if responseSize s then _ else x2).
  assert (E1 : metrics (out x1)
               = metrics (out x)
                 ++ (if requestDuration s
                     then [mkMetric RequestDuration ["POST"; api] (Observe duration)]
                     else [])
               ∧ logs (out x1) = logs (out x) ∧ reply_header x1 = reply_header x
               ∧ now x1 = now x).
  { subst x1. destruct (requestDuration s); simpl; by rewrite ?app_nil_r. }
  assert (E2 : metrics (out x2)
               = metrics (out x1)
                 ++ (if requestCounter s
                     then [mkMetric RequestCounter ["POST"; api; outcome err] Inc]
                     else [])
               ∧ logs (out x2) = logs (out x1) ∧ reply_header x2 = reply_header x1
               ∧ now x2 = now x1).
  { subst x2. destruct (requestCounter s); simpl; rewrite ?app_nil_r; [|done].
    by destruct err. }
  assert (E3 : metrics (out x3)
               = metrics (out x2)
                 ++ (if responseSize s then sizeEvents ResponseSize api reply else [])
               ∧ logs (out x3) = logs (out x2) ∧ reply_header x3 = reply_header x2
               ∧ now x3 = now x2).
  { subst x3. destruct (responseSize s); [|by rewrite app_nil_r].
    destruct reply; try apply observeSize_events; simpl; by rewrite app_nil_r. }
  destruct E1 as (M1 & L1 & R1 & N1), E2 as (M2 & L2 & R2 & N2),
    E3 as (M3 & L3 & R3 & N3).
  destruct err as [e|]; [destruct (errorCounter s)|]; simpl;
    rewrite ?andb_false_r, ?M3, ?M2, ?M1, ?L3, ?L2, ?L1, ?R3, ?R2, ?R1, ?N3, ?N2, ?N1,
      ?app_nil_r, <- ?app_assoc; done.
Qed.

Lemma logResponse_entry (tr : Transporter) duration (reply : Payload Msg) err x :
  let x' := logResponse (tr_Operation tr) (tr_Endpoint tr) duration err
              (collectHeaders (reply_header x)) (loggedBody "response" reply) x in
  logs (out x') = logs (out x) ++ [responseLog tr duration reply err (reply_header x)]
  ∧ metrics (out x') = metrics (out x)
  ∧ reply_header x' = reply_header x
  ∧ now x' = now x.
Proof. cbv zeta. unfold logResponse, responseLog. by destruct err. Qed.

Lemma setReplyHeaders_header traceID spanID (reply : Payload Msg) x :
  reply_header (setReplyHeaders traceID spanID reply x)
  = match reply with
    | PMessage _ => <["Content-Type" := "application/json"]>
    | _ => id
    end (<["Span-Id" := spanID]> (<["Trace-Id" := traceID]> (reply_header x)))
  ∧ now (setReplyHeaders traceID spanID reply x) = now x.
Proof. unfold setReplyHeaders. by destruct reply. Qed.

(** The course of a request through the metrics middleware, past the
    cancellation check and with a transport: the exchange the handler
    receives, and the exchange left when the middleware returns. *)
Lemma metrics_anatomy service (handler : Handler) ctx req x tr :
  ctx_Err ctx = None -> ctx_transport ctx = Some tr ->
  let api := tr_Operation tr in
  let ctx' := extractTraceContextFromRequest ctx (Some (tr_RequestHeader tr)) in
  let ids := traceIDAndSpanIDFromSpan (ctx_span ctx') in
  let final := TracerLogPackWithMetrics service handler ctx req x in
  ∃ x1,
    (logs (out x1) = logs (out x) ++ [requestLog tr req]
     ∧ metrics (out x1) = metrics (out x) ++ eventsBefore service api req
     ∧ reply_header x1 = reply_header x
     ∧ now x1 = now x)
    ∧ ∀ reply err x2, handler ctx' req x1 = ((reply, err), x2) ->
        final.1 = (reply, err)
        ∧ logs (out final.2)
          = logs (out x2)
            ++ [responseLog tr (now x2 - now x) reply err (reply_header x2)]
        ∧ metrics (out final.2)
          = metrics (out x2) ++ eventsAfter service api (now x2 - now x) reply err
        ∧ now final.2 = now x2
        ∧ reply_header final.2
          = match reply with
            | PMessage _ => <["Content-Type" := "application/json"]>
            | _ => id
            end (<["Span-Id" := ids.2]> (<["Trace-Id" := ids.1]> (reply_header x2))).
Proof.
  intros He Ht. cbv zeta. unfold TracerLogPackWithMetrics. rewrite He, Ht.
  destruct (traceIDAndSpanIDFromSpan _) as [traceID spanID].
  set (ctx' := extractTraceContextFromRequest ctx (Some (tr_RequestHeader tr))).
  set (api := tr_Operation tr).
  set (x0 := xlog LInfo httpRequestLogFormat _ x).
  set (xa := if enabled service inflightRequests then _ else x0).
  set (x1 := if enabled service requestSize then _ else xa).
  assert (Ea : metrics (out xa)
               = metrics (out x)
                 ++ (if enabled service inflightRequests
                     then [mkMetric InflightRequests [api] Inc] else [])
               ∧ logs (out xa) = logs (out x) ++ [requestLog tr req]
               ∧ reply_header xa = reply_header x ∧ now xa = now x).
  { subst xa x0. destruct (enabled service inflightRequests); simpl;
      by rewrite ?app_nil_r. }
  assert (E1 : metrics (out x1) = metrics (out x) ++ eventsBefore service api req
               ∧ logs (out x1) = logs (out x) ++ [requestLog tr req]
               ∧ reply_header x1 = reply_header x ∧ now x1 = now x).
  { destruct Ea as (Ma & La & Ra & Na). subst x1. unfold eventsBefore.
    destruct (enabled service requestSize).
    - destruct (observeSize_events RequestSize api req xa) as (M & L & R & N).
      by rewrite M, L, R, N, Ma, La, Ra, Na, <- app_assoc.
    - by rewrite Ma, La, Ra, Na, app_nil_r. }
  exists x1. split; [tauto|].
  intros reply err x2 Eh. rewrite Eh.
  destruct (logResponse_entry tr (now x2 - now x) reply err x2) as (Ll & Ml & Rl & Nl).
  cbv zeta in Ll, Ml, Rl, Nl.
  set (xl := logResponse _ _ _ _ _ _ x2) in *.
  destruct (recordMetrics_events service api (now x2 - now x) reply err xl)
    as (Mm & Lm & Rm & Nm).
  cbv zeta in Mm, Lm, Rm, Nm.
  set (xm := recordMetrics service api (now x2 - now x) reply err xl) in *.
  set (xd := if enabled service inflightRequests then _ else xm).
  assert (Ed : metrics (out xd)
               = metrics (out xm)
                 ++ (if enabled service inflightRequests
                     then [mkMetric InflightRequests [api] Dec] else [])
               ∧ logs (out xd) = logs (out xm)
               ∧ reply_header xd = reply_header xm ∧ now xd = now xm).
  { subst xd. destruct (enabled service inflightRequests); simpl; by rewrite ?app_nil_r. }
  destruct Ed as (Md & Ld & Rd & Nd).
  destruct (setReplyHeaders_header traceID spanID reply xd) as (Hh & Hn).
  cbn [fst snd]. rewrite setReplyHeaders_out, Hh, Hn.
  unfold eventsAfter.
  rewrite Md, Ld, Rd, Nd, Mm, Lm, Rm, Nm, Ml, Ll, Rl, Nl, <- !app_assoc.
  done.
Qed.

End MiddlewareAnatomy.

Section MiddlewareCourse.

Context `{Runtime}.

(** A result of either middleware is a result of the metrics middleware,
    for the service or for none. *)
Lemma either_result service (handler : Handler) ctx req x final :
  final = TracerLogPack handler ctx req x
  ∨ final = TracerLogPackWithMetrics service handler ctx req x ->
  ∃ service', final = TracerLogPackWithMetrics service' handler ctx req x.
Proof.
  intros [-> | ->]; [exists None | by exists service].
  apply plain_is_metrics_None.
Qed.

(** X14.  The two log lines of a request, for either middleware, past the
    cancellation check and with a transport.  The handler receives an
    exchange whose last log line is the request line, at level Info.  When it
    returns, one response line is added: at level Error when the handler
    failed and Info otherwise, with the time the handler took and with the
    reply header as the handler left it (the trace headers are set later). *)
Theorem request_and_response_logged service (handler : Handler) ctx req x tr final :
  ctx_Err ctx = None -> ctx_transport ctx = Some tr ->
  final = TracerLogPack handler ctx req x
  ∨ final = TracerLogPackWithMetrics service handler ctx req x ->
  let ctx' := extractTraceContextFromRequest ctx (Some (tr_RequestHeader tr)) in
  ∃ x1,
    logs (out x1) = logs (out x) ++ [requestLog tr req]
    ∧ ∀ reply err x2, handler ctx' req x1 = ((reply, err), x2) ->
        final.1 = (reply, err)
        ∧ logs (out final.2)
          = logs (out x2)
            ++ [responseLog tr (now x2 - now x) reply err (reply_header x2)]
        ∧ (log_level (responseLog tr (now x2 - now x) reply err (reply_header x2))
           = LError ↔ err ≠ None).
Proof.
  intros He Ht Hfinal. cbv zeta.
  destruct (either_result _ _ _ _ _ _ Hfinal) as [service' ->].
  destruct (metrics_anatomy service' handler ctx req x tr He Ht)
    as (x1 & (L1 & _) & Hafter).
  exists x1. split; [exact L1|]. intros reply err x2 Eh.
  destruct (Hafter reply err x2 Eh) as (R & L & _).
  repeat split; try done; by destruct err.
Qed.

Lemma inflight_app api l1 l2 :
  inflight api (l1 ++ l2) = inflight api l1 + inflight api l2.
Proof. unfold inflight. induction l1 as [|e l1 IH]; simpl; [done | lia]. Qed.

Lemma inflight_sizeEvents op m api (p : Payload Msg) :
  m ≠ InflightRequests -> inflight op (sizeEvents m api p) = 0.
Proof.
  intros Hm. unfold sizeEvents. destruct p as [|msg|v]; try done.
  destruct (proto_Marshal msg); [|done]. unfold inflight. simpl.
  unfold gauge_step. simpl. by destruct m.
Qed.

Lemma inflight_before op service api (req : Payload Msg) :
  inflight op (eventsBefore service api req)
  = if enabled service inflightRequests && bool_decide (api = op) then 1 else 0.
Proof.
  unfold eventsBefore. rewrite inflight_app.
  assert (inflight op (if enabled service requestSize
                       then sizeEvents RequestSize api req else []) = 0) as ->.
  { destruct (enabled service requestSize); [by apply inflight_sizeEvents | done]. }
  destruct (enabled service inflightRequests); [|done].
  unfold inflight, gauge_step. simpl.
  destruct (decide (api = op)) as [->|Hne].
  - by rewrite !bool_decide_true.
  - rewrite !bool_decide_false; [done | done | congruence].
Qed.

Lemma inflight_after op service api duration (reply : Payload Msg) err :
  inflight op (eventsAfter service api duration reply err)
  = if enabled service inflightRequests && bool_decide (api = op) then -1 else 0.
Proof.
  unfold eventsAfter. rewrite !inflight_app.
  assert (inflight op (if enabled service responseSize
                       then sizeEvents ResponseSize api reply else []) = 0) as ->.
  { destruct (enabled service responseSize); [by apply inflight_sizeEvents | done]. }
  assert (∀ (b : bool) e, m_metric e ≠ InflightRequests ->
            inflight op (if b then [e] else []) = 0) as Hz.
  { intros [] e He; [|done]. unfold inflight, gauge_step. simpl.
    by destruct (m_metric e). }
  rewrite !Hz by done.
  destruct (enabled service inflightRequests); [|done].
  unfold inflight, gauge_step. simpl.
  destruct (decide (api = op)) as [->|Hne].
  - by rewrite !bool_decide_true.
  - rewrite !bool_decide_false; [done | done | congruence].
Qed.

(** X15.  The in-flight gauge of the metrics middleware.  While the handler
    runs the gauge of the request's operation is up by one, and when the
    middleware returns it is down by one again, whether the handler failed
    or not; the gauges of other operations are not touched, and none is when
    the vector is nil. *)
Theorem inflight_gauge_balanced service (handler : Handler) ctx req x tr :
  ctx_Err ctx = None -> ctx_transport ctx = Some tr ->
  let api := tr_Operation tr in
  let ctx' := extractTraceContextFromRequest ctx (Some (tr_RequestHeader tr)) in
  let final := TracerLogPackWithMetrics service handler ctx req x in
  let moved op : Z :=
    if enabled service inflightRequests && bool_decide (api = op) then 1 else 0 in
  ∃ x1,
    (∀ op, inflight op (metrics (out x1)) = inflight op (metrics (out x)) + moved op)
    ∧ ∀ reply err x2, handler ctx' req x1 = ((reply, err), x2) ->
        ∀ op, inflight op (metrics (out final.2))
              = inflight op (metrics (out x2)) - moved op.
Proof.
  intros He Ht. cbv zeta.
  destruct (metrics_anatomy service handler ctx req x tr He Ht)
    as (x1 & (_ & M1 & _) & Hafter).
  exists x1. split.
  - intros op. by rewrite M1, inflight_app, inflight_before.
  - intros reply err x2 Eh op.
    destruct (Hafter reply err x2 Eh) as (_ & _ & M & _).
    rewrite M, inflight_app, inflight_after.
    by destruct (enabled service inflightRequests && bool_decide (tr_Operation tr = op)).
Qed.

(** X16.  What the middlewares do to the reply header.  They leave it alone
    before the handler runs.  After it they set [Trace-Id] and [Span-Id],
    set [Content-Type] to [application/json] exactly when the reply is a
    proto message, and touch no other key: what the handler put in the
    header stays. *)
Theorem reply_header_annotation service (handler : Handler) ctx req x tr final :
  ctx_Err ctx = None -> ctx_transport ctx = Some tr ->
  final = TracerLogPack handler ctx req x
  ∨ final = TracerLogPackWithMetrics service handler ctx req x ->
  let ctx' := extractTraceContextFromRequest ctx (Some (tr_RequestHeader tr)) in
  ∃ x1,
    reply_header x1 = reply_header x
    ∧ ∀ reply err x2, handler ctx' req x1 = ((reply, err), x2) ->
        (∀ key, key ≠ "Trace-Id" -> key ≠ "Span-Id" -> key ≠ "Content-Type" ->
                reply_header final.2 !! key = reply_header x2 !! key)
        ∧ reply_header final.2 !! "Content-Type"
          = match reply with
            | PMessage _ => Some "application/json"
            | _ => reply_header x2 !! "Content-Type"
            end.
Proof.
  intros He Ht Hfinal. cbv zeta.
  destruct (either_result _ _ _ _ _ _ Hfinal) as [service' ->].
  destruct (metrics_anatomy service' handler ctx req x tr He Ht)
    as (x1 & (_ & _ & R1 & _) & Hafter).
  exists x1. split; [exact R1|]. intros reply err x2 Eh.
  destruct (Hafter reply err x2 Eh) as (_ & _ & _ & _ & R). rewrite R. split.
  - intros key H1 H2 H3.
    destruct reply; simpl; rewrite ?(lookup_insert_ne _ "Content-Type") by done;
      by rewrite !lookup_insert_ne.
  - destruct reply; simpl; rewrite ?lookup_insert_eq; try done;
      by rewrite !lookup_insert_ne.
Qed.

Lemma occurrences_app m l1 l2 :
  occurrences m (l1 ++ l2) = (occurrences m l1 + occurrences m l2)%nat.
Proof. unfold occurrences. by rewrite List.filter_app, length_app. Qed.

Lemma occurrences_one m (b : bool) e :
  occurrences m (if b then [e] else [])
  = if b && bool_decide (m_metric e = m) then 1%nat else 0%nat.
Proof. destruct b; [|done]. unfold occurrences. simpl. by case_bool_decide. Qed.

Lemma occurrences_sizeEvents m m' api (p : Payload Msg) :
  m ≠ m' -> occurrences m (sizeEvents m' api p) = 0%nat.
Proof.
  intros Hm. unfold sizeEvents. destruct p as [|msg|v]; try done.
  destruct (proto_Marshal msg); [|done]. unfold occurrences. simpl.
  by rewrite bool_decide_false.
Qed.

(** X18.  How often the metrics middleware updates its counters.  Before
    the handler returns, the request counter, the duration histogram and the
    error counter are not touched.  After it, the request counter and the
    duration histogram are updated exactly once each when their vector is
    set, and the error counter exactly once when its vector is set and the
    handler failed, not at all when it succeeded. *)
Theorem counters_updated_once service (handler : Handler) ctx req x tr :
  ctx_Err ctx = None -> ctx_transport ctx = Some tr ->
  let ctx' := extractTraceContextFromRequest ctx (Some (tr_RequestHeader tr)) in
  let final := TracerLogPackWithMetrics service handler ctx req x in
  let once (on : bool) : nat := if on then 1%nat else 0%nat in
  ∃ x1,
    (∀ m, m = RequestCounter ∨ m = RequestDuration ∨ m = ErrorCounter ->
          occurrences m (metrics (out x1)) = occurrences m (metrics (out x)))
    ∧ ∀ reply err x2, handler ctx' req x1 = ((reply, err), x2) ->
        occurrences RequestCounter (metrics (out final.2))
        = (occurrences RequestCounter (metrics (out x2))
           + once (enabled service requestCounter))%nat
        ∧ occurrences RequestDuration (metrics (out final.2))
          = (occurrences RequestDuration (metrics (out x2))
             + once (enabled service requestDuration))%nat
        ∧ occurrences ErrorCounter (metrics (out final.2))
          = (occurrences ErrorCounter (metrics (out x2))
             + once (enabled service errorCounter && bool_decide (err ≠ None)))%nat.
Proof.
  intros He Ht. cbv zeta.
  destruct (metrics_anatomy service handler ctx req x tr He Ht)
    as (x1 & (_ & M1 & _) & Hafter).
  exists x1. split.
  - intros m Hm. rewrite M1, occurrences_app. unfold eventsBefore.
    rewrite occurrences_app, occurrences_one.
    assert (occurrences m (if enabled service requestSize
                           then sizeEvents RequestSize (tr_Operation tr) req
                           else []) = 0%nat) as ->.
    { destruct (enabled service requestSize); [|done].
      apply occurrences_sizeEvents. by destruct Hm as [-> | [-> | ->]]. }
    rewrite bool_decide_false; [|simpl; by destruct Hm as [-> | [-> | ->]]].
    rewrite andb_false_r. lia.
  - intros reply err x2 Eh.
    destruct (Hafter reply err x2 Eh) as (_ & _ & M & _). rewrite M.
    rewrite !occurrences_app. unfold eventsAfter.
    rewrite !occurrences_app, !occurrences_one. simpl.
    assert (∀ m, m ≠ ResponseSize ->
              occurrences m (if enabled service responseSize
                             then sizeEvents ResponseSize (tr_Operation tr) reply
                             else []) = 0%nat) as Hs.
    { intros m Hm. destruct (enabled service responseSize); [|done].
      by apply occurrences_sizeEvents. }
    rewrite !Hs by done.
    rewrite ?andb_true_r, ?andb_false_r.
    repeat split; lia.
Qed.

End MiddlewareCourse.

(** ** The size of a logged body *)

Lemma length_append (s t : string) :
  String.length (s +:+ t) = (String.length s + String.length t)%nat.
Proof. induction s as [|c s IH]; [done|]. simpl. by rewrite IH. Qed.

Lemma pretty_N_go_length (k : nat) :
  ∀ (n : N) (s : string),
    (n < 10 ^ N.of_nat k)%N ->
    (String.length (pretty_N_go n s) <= k + String.length s)%nat.
Proof.
  induction k as [|k IH]; intros n s Hn.
  - assert (n = 0%N) as -> by (simpl in Hn; lia). rewrite pretty_N_go_0. lia.
  - destruct (decide (n = 0)%N) as [->|Hpos]; [rewrite pretty_N_go_0; lia|].
    rewrite pretty_N_go_step by lia.
    assert (Hdiv : (n `div` 10 < 10 ^ N.of_nat k)%N).
    { apply N.Div0.div_lt_upper_bound.
      replace (N.of_nat (S k)) with (N.succ (N.of_nat k)) in Hn by lia.
      rewrite N.pow_succ_r' in Hn. lia. }
    specialize (IH _ (String (pretty_N_char (n `mod` 10)) s) Hdiv).
    cbn [String.length] in IH. lia.
Qed.

Lemma pretty_Z_length (z : Z) (k : nat) :
  0 <= z < 10 ^ Z.of_nat k -> (1 <= k)%nat ->
  (String.length (pretty z) <= k)%nat.
Proof.
  intros [Hz Hk] Hk1. destruct z as [|p|p]; [simpl; lia | | lia].
  change (pretty (Z.pos p)) with (pretty (N.pos p)).
  unfold pretty, pretty_N. rewrite decide_False by done.
  pose proof (pretty_N_go_length k (N.pos p) EmptyString) as Hlen.
  cbn [String.length] in Hlen. rewrite Nat.add_0_r in Hlen. apply Hlen.
  apply N2Z.inj_lt. rewrite N2Z.inj_pow, nat_N_Z. simpl. lia.
Qed.

Section LoggedSize.

Context `{Runtime}.

(** X17.  What [safeProtoToJSON] returns for a message that protojson
    serializes never exceeds 1 MiB: a text within the limit is returned as it
    is, a longer one is replaced by a placeholder of at most 49 bytes.  (The
    length of the serialized text is a Go [int].) *)
Theorem safeProtoToJSON_output_bounded (msg : Msg) (body : string) :
  protojson_Marshal msg = Ok body -> len body < 2 ^ 63 ->
  ∃ text, safeProtoToJSON msg = Ok text
          ∧ len text <= maxBodySize
          ∧ (maxBodySize < len body -> len text <= 49).
Proof.
  intros Hm Hlen. unfold safeProtoToJSON. rewrite Hm.
  destruct (len body >? maxBodySize) eqn:Hgt.
  - eexists. split; [reflexivity|].
    assert (Hdigits : (String.length (pretty (len body)) <= 19)%nat).
    { apply pretty_Z_length; [|lia]. unfold len in *. split; [lia|].
      eapply Z.lt_trans; [exact Hlen | by vm_compute]. }
    assert (Hplace : len ("<body too large, size: " +:+ pretty (len body) +:+ " bytes>")
                     <= 49).
    { unfold len at 1. rewrite !length_append. simpl String.length. lia. }
    unfold maxBodySize. split; [lia | intros _; exact Hplace].
  - exists body. rewrite Z.gtb_ltb in Hgt. apply Z.ltb_ge in Hgt.
    split; [done|]. split; [exact Hgt | lia].
Qed.

End LoggedSize.

Lemma safeProtoToJSON_output_bounded_witness :
  ∃ text, safeProtoToJSON (H := text_runtime) body_over_1MiB = Ok text
          ∧ len text <= maxBodySize
          ∧ (maxBodySize < len body_over_1MiB -> len text <= 49).
Proof.
  assert (Hlen : len body_over_1MiB < 2 ^ 63) by (vm_compute; reflexivity).
  exact (safeProtoToJSON_output_bounded (H := text_runtime) body_over_1MiB
           body_over_1MiB eq_refl Hlen).
Defined.

(** * Properties of the earlier business code mapping *)

Lemma Contains_unfold s substr :
  BusinessCodes.Contains s substr
  = BusinessCodes.HasPrefix s substr
    || match s with
       | EmptyString => false
       | String _ s' => BusinessCodes.Contains s' substr
       end.
Proof. by destruct s. Qed.

Lemma HasPrefix_app_l s a b :
  BusinessCodes.HasPrefix s (a +:+ b) = true -> BusinessCodes.HasPrefix s a = true.
Proof.
  revert s. induction a as [|c a IH]; intros s Hp; [by destruct s|].
  change (String c a +:+ b) with (String c (a +:+ b)) in Hp.
  destruct s as [|d s]; [done|]. cbn [BusinessCodes.HasPrefix] in *.
  apply andb_true_iff in Hp as [-> Hp]. by apply IH.
Qed.

Lemma HasPrefix_app_r s a b :
  BusinessCodes.HasPrefix s (a +:+ b) = true -> BusinessCodes.Contains s b = true.
Proof.
  revert s. induction a as [|c a IH]; intros s Hp.
  - change (EmptyString +:+ b) with b in Hp. rewrite Contains_unfold. by rewrite Hp.
  - change (String c a +:+ b) with (String c (a +:+ b)) in Hp.
    destruct s as [|d s]; [done|]. cbn [BusinessCodes.HasPrefix] in Hp.
    apply andb_true_iff in Hp as [_ Hp].
    rewrite Contains_unfold, (IH _ Hp). apply orb_true_r.
Qed.

(** A text that contains [a ++ b] contains [a] and contains [b]. *)
Lemma Contains_app s a b :
  BusinessCodes.Contains s (a +:+ b) = true ->
  BusinessCodes.Contains s a = true ∧ BusinessCodes.Contains s b = true.
Proof.
  induction s as [|c s IH]; intros Hc.
  - rewrite Contains_unfold, orb_false_r in Hc.
    rewrite (Contains_unfold _ a), (HasPrefix_app_l _ _ _ Hc).
    by rewrite (HasPrefix_app_r _ _ _ Hc).
  - rewrite (Contains_unfold (String c s)) in Hc.
    apply orb_true_iff in Hc as [Hp|Hc].
    + rewrite (Contains_unfold _ a), (HasPrefix_app_l _ _ _ Hp).
      by rewrite (HasPrefix_app_r _ _ _ Hp).
    + destruct (IH Hc) as [Ha Hb].
      rewrite (Contains_unfold (String c s) a), (Contains_unfold (String c s) b), Ha, Hb.
      by rewrite !orb_true_r.
Qed.

Lemma orb_absorbed (a b : bool) : (a = true -> b = true) -> a || b = b.
Proof. destruct a, b; intros Hab; try done. by specialize (Hab eq_refl). Qed.

Lemma orb_absorbed_r (a b : bool) : (b = true -> a = true) -> a || b = a.
Proof. destruct a, b; intros Hab; try done. by specialize (Hab eq_refl). Qed.

(** [detectModuleBase] answers one of the four module bases. *)
Lemma detectModuleBase_bases (ToLower : string -> string) (reason : string) :
  BusinessCodes.detectModuleBase ToLower reason ∈ [100000; 200000; 300000; 400000].
Proof.
  unfold BusinessCodes.detectModuleBase.
  repeat match goal with
         | |- context [if ?c then _ else _] => destruct c
         end; set_solver.
Qed.

(** X19.  [detectModuleBase] decides by five names only, in this order of
    precedence: "betday-user" (user module), then "game", then "pay", then
    "user", then "base"; any other text is the user module.  The tests for
    "betday-game", "betday-pay", "payment" and "betday-base" change nothing.
    The answer is one of the four module bases. *)
Theorem detectModuleBase_priority (ToLower : string -> string) (reason : string) :
  let names name := BusinessCodes.Contains (ToLower reason) name in
  BusinessCodes.detectModuleBase ToLower reason
  = (if names "betday-user" then 100000
     else if names "game" then 200000
     else if names "pay" then 300000
     else if names "user" then 100000
     else if names "base" then 400000
     else 100000)
  ∧ BusinessCodes.detectModuleBase ToLower reason
    ∈ [100000; 200000; 300000; 400000].
Proof.
  cbv zeta. unfold BusinessCodes.detectModuleBase.
  set (text := ToLower reason).
  rewrite (orb_absorbed (BusinessCodes.Contains text "betday-game"))
    by (intros Hc; apply (Contains_app text "betday-" "game" Hc)).
  rewrite (orb_absorbed (BusinessCodes.Contains text "betday-pay"))
    by (intros Hc; apply (Contains_app text "betday-" "pay" Hc)).
  rewrite (orb_absorbed_r (BusinessCodes.Contains text "pay"))
    by (intros Hc; apply (Contains_app text "pay" "ment" Hc)).
  rewrite (orb_absorbed (BusinessCodes.Contains text "betday-base"))
    by (intros Hc; apply (Contains_app text "betday-" "base" Hc)).
  destruct (BusinessCodes.Contains text "betday-user"),
    (BusinessCodes.Contains text "game"), (BusinessCodes.Contains text "pay"),
    (BusinessCodes.Contains text "user"), (BusinessCodes.Contains text "base");
    simpl; (split; [reflexivity | set_solver]).
Qed.

Lemma wrap64_small z : - 2 ^ 63 <= z < 2 ^ 63 -> wrap64 z = z.
Proof. intros Hz. unfold wrap64. rewrite Z.mod_small; lia. Qed.

Lemma firstContained_Some text visited v :
  BusinessCodes.firstContained text visited = Some v ->
  ∃ name, (name, v) ∈ visited ∧ BusinessCodes.Contains text name = true.
Proof.
  induction visited as [|[name' v'] rest IH]; [done|]. simpl.
  destruct (BusinessCodes.Contains text name') eqn:Hc.
  - intros [= <-]. exists name'. split; [left | done].
  - intros Hrest. destruct (IH Hrest) as (name & Hin & Hn).
    exists name. split; [by right | done].
Qed.

Lemma firstContained_None text visited :
  BusinessCodes.firstContained text visited = None ->
  ∀ name v, (name, v) ∈ visited -> BusinessCodes.Contains text name = false.
Proof.
  induction visited as [|[name' v'] rest IH]; intros Hn name v Hin.
  - by apply elem_of_nil in Hin.
  - simpl in Hn. destruct (BusinessCodes.Contains text name') eqn:Hc; [done|].
    apply elem_of_cons in Hin as [[= -> ->] | Hin]; [done | by eapply IH].
Qed.

Lemma errorReasonMap_values name v :
  (name, v) ∈ BusinessCodes.errorReasonMap -> 0 <= v <= 11.
Proof.
  unfold BusinessCodes.errorReasonMap. intros Hin.
  repeat (apply elem_of_cons in Hin as [[= -> ->] | Hin]; [lia|]).
  by apply elem_of_nil in Hin.
Qed.

(** The names of [errorReasonMap] are the keys of a map: one value each. *)
Lemma errorReasonMap_functional name v v' :
  (name, v) ∈ BusinessCodes.errorReasonMap ->
  (name, v') ∈ BusinessCodes.errorReasonMap -> v = v'.
Proof.
  unfold BusinessCodes.errorReasonMap. intros Hin Hin'.
  repeat (apply elem_of_cons in Hin as [[= -> ->] | Hin];
          [repeat (apply elem_of_cons in Hin' as [Heq | Hin']; [congruence|]);
           by apply elem_of_nil in Hin'|]).
  by apply elem_of_nil in Hin.
Qed.

(** The code is the base plus an offset, whatever the visiting order. *)
Lemma BusinessCodeMapper_range (ToUpper : string -> string)
  (visited : list (string * Z)) (reason : string) (moduleBase : Z) :
  visited ≡ₚ BusinessCodes.errorReasonMap ->
  - 2 ^ 63 <= moduleBase -> moduleBase + 999 < 2 ^ 63 ->
  ∃ offset, (offset = 999 ∨ 0 <= offset <= 11)
            ∧ BusinessCodes.BusinessCodeMapper ToUpper visited reason moduleBase
              = moduleBase + offset.
Proof.
  intros Hperm Hlo Hhi. unfold BusinessCodes.BusinessCodeMapper, int_add.
  destruct (BusinessCodes.firstContained _ visited) as [v|] eqn:Hf.
  - destruct (firstContained_Some _ _ _ Hf) as (name & Hin & Hc).
    rewrite Hperm in Hin. pose proof (errorReasonMap_values _ _ Hin) as Hv.
    exists v. rewrite wrap64_small by lia. split; [by right | done].
  - exists 999. rewrite wrap64_small by lia. split; [by left|].
    by destruct (0 <? _)%nat.
Qed.

(** X20.  The codes of [BusinessCodeMapper].  Whatever order the runtime
    visits the map in, the answer is the module base plus the value of a
    reason name (0 to 11) or plus 999, and it is the base plus 999 when the
    upper-cased text contains none of the twelve names.  (The sum stays
    within Go's [int].) *)
Theorem BusinessCodeMapper_codes (ToUpper : string -> string)
  (visited : list (string * Z)) (reason : string) (moduleBase : Z) :
  visited ≡ₚ BusinessCodes.errorReasonMap ->
  - 2 ^ 63 <= moduleBase -> moduleBase + 999 < 2 ^ 63 ->
  let code := BusinessCodes.BusinessCodeMapper ToUpper visited reason moduleBase in
  (code = moduleBase + 999 ∨ moduleBase <= code <= moduleBase + 11)
  ∧ ((∀ name v, (name, v) ∈ BusinessCodes.errorReasonMap ->
        BusinessCodes.Contains (ToUpper reason) name = false) ->
     code = moduleBase + 999).
Proof.
  intros Hperm Hlo Hhi. cbv zeta. unfold BusinessCodes.BusinessCodeMapper, int_add.
  destruct (BusinessCodes.firstContained _ visited) as [v|] eqn:Hf.
  - destruct (firstContained_Some _ _ _ Hf) as (name & Hin & Hc).
    rewrite Hperm in Hin. pose proof (errorReasonMap_values _ _ Hin) as Hv.
    rewrite wrap64_small by lia. split; [right; lia|].
    intros Hnone. by rewrite (Hnone _ _ Hin) in Hc.
  - rewrite wrap64_small by lia. destruct (0 <? _)%nat; (split; [by left | done]).
Qed.

Lemma BusinessCodeMapper_codes_witness :
  BusinessCodes.BusinessCodeMapper BusinessCodes.ascii_ToUpper BusinessCodes.errorReasonMap
    "layout.login.v1.ErrorReason_Token_Expired" 100000 = 100008
  ∧ BusinessCodes.BusinessCodeMapper BusinessCodes.ascii_ToUpper
      BusinessCodes.errorReasonMap "ErrorReason_RATE_LIMITED" 300000 = 300999.
Proof.
  split; [reflexivity|].
  refine (proj2 (BusinessCodeMapper_codes BusinessCodes.ascii_ToUpper
                   BusinessCodes.errorReasonMap "ErrorReason_RATE_LIMITED" 300000
                   (reflexivity _) ltac:(lia) ltac:(lia)) _).
  intros name v Hin. unfold BusinessCodes.errorReasonMap in Hin.
  repeat (apply elem_of_cons in Hin as [[= -> ->] | Hin]; [reflexivity|]).
  by apply elem_of_nil in Hin.
Defined.

(** X21.  When the upper-cased text contains exactly one of the twelve
    reason names, [BusinessCodeMapper] answers the module base plus the value
    of that name, in whatever order the runtime visits the map. *)
Theorem BusinessCodeMapper_single_name (ToUpper : string -> string)
  (visited : list (string * Z)) (reason : string) (moduleBase : Z) name v :
  visited ≡ₚ BusinessCodes.errorReasonMap ->
  (name, v) ∈ BusinessCodes.errorReasonMap ->
  BusinessCodes.Contains (ToUpper reason) name = true ->
  (∀ name' v', (name', v') ∈ BusinessCodes.errorReasonMap -> name' ≠ name ->
     BusinessCodes.Contains (ToUpper reason) name' = false) ->
  BusinessCodes.BusinessCodeMapper ToUpper visited reason moduleBase
  = int_add moduleBase v.
Proof.
  intros Hperm Hin Hc Hothers. unfold BusinessCodes.BusinessCodeMapper.
  destruct (BusinessCodes.firstContained _ visited) as [v'|] eqn:Hf.
  - destruct (firstContained_Some _ _ _ Hf) as (name' & Hin' & Hc').
    rewrite Hperm in Hin'.
    destruct (decide (name' = name)) as [->|Hne].
    + by rewrite (errorReasonMap_functional _ _ _ Hin Hin').
    + by rewrite (Hothers _ _ Hin' Hne) in Hc'.
  - rewrite <- Hperm in Hin. by rewrite (firstContained_None _ _ Hf _ _ Hin) in Hc.
Qed.

(** X22.  With two reason names in the text the answer of
    [BusinessCodeMapper] depends on the order in which the runtime visits
    the map: two orders give two codes for one text. *)
Theorem BusinessCodeMapper_order_dependent :
  ∃ reason visited visited',
    visited ≡ₚ BusinessCodes.errorReasonMap
    ∧ visited' ≡ₚ BusinessCodes.errorReasonMap
    ∧ BusinessCodes.BusinessCodeMapper BusinessCodes.ascii_ToUpper visited reason 100000
      ≠ BusinessCodes.BusinessCodeMapper BusinessCodes.ascii_ToUpper visited' reason
          100000.
Proof.
  exists "login_error: invalid_token", BusinessCodes.errorReasonMap,
    (reverse BusinessCodes.errorReasonMap).
  split; [done|]. split; [apply reverse_Permutation|].
  by vm_compute.
Qed.

Lemma BusinessCodeMapper_single_name_witness :
  BusinessCodes.BusinessCodeMapper BusinessCodes.ascii_ToUpper
    (reverse BusinessCodes.errorReasonMap)
    "layout.login.v1.ErrorReason_account_has_been_banned" 100000
  = 100002.
Proof.
  refine (BusinessCodeMapper_single_name BusinessCodes.ascii_ToUpper
            (reverse BusinessCodes.errorReasonMap)
            "layout.login.v1.ErrorReason_account_has_been_banned" 100000
            "ACCOUNT_HAS_BEEN_BANNED" 2 (reverse_Permutation _) _ eq_refl _).
  - unfold BusinessCodes.errorReasonMap. set_solver.
  - intros name' v' Hin Hne. unfold BusinessCodes.errorReasonMap in Hin.
    repeat (apply elem_of_cons in Hin as [[= -> ->] | Hin];
            [first [reflexivity | done]|]).
    by apply elem_of_nil in Hin.
Defined.

(** X23.  The earlier [enhancedErrorEncoder].  A nil Kratos error makes it
    panic on [se.Reason].  For any other error, on a fresh writer that takes
    the bytes, it answers status 200 and the JSON object with the one member
    [code], where the code is a module base (100000 to 400000) plus the value
    of a reason name (0 to 11) or plus 999. *)
Theorem earlier_enhancedErrorEncoder_codes (ToUpper ToLower : string -> string)
  (visited : list (string * Z)) (FromError : option error -> option Error) h w r err σ :
  visited ≡ₚ BusinessCodes.errorReasonMap ->
  rw_status w = None -> rw_broken w = false ->
  let answer := BusinessCodes.enhancedErrorEncoder ToUpper ToLower visited encoding_json
                  FromError h w r err σ in
  (FromError err = None -> answer = None)
  ∧ (FromError err ≠ None ->
     ∃ w' σ' base offset,
       answer = Some (w', σ')
       ∧ rw_status w' = Some StatusOK
       ∧ rw_body w' = rw_body w +:+ envelope (base + offset)
       ∧ base ∈ [100000; 200000; 300000; 400000]
       ∧ (offset = 999 ∨ 0 <= offset <= 11)).
Proof.
  intros Hperm Hs Hb. cbv zeta. unfold BusinessCodes.enhancedErrorEncoder.
  destruct (FromError err) as [se|]; [|by split].
  split; [done|]. intros _.
  pose proof (detectModuleBase_bases ToLower (Reason se)) as Hbase.
  set (base := BusinessCodes.detectModuleBase ToLower (Reason se)) in *.
  assert (Hrange : 100000 <= base <= 400000).
  { clearbody base. pose proof Hbase as Hin.
    repeat (apply elem_of_cons in Hin as [-> | Hin]; [lia|]).
    by apply elem_of_nil in Hin. }
  destruct (BusinessCodeMapper_range ToUpper visited (Reason se) base Hperm)
    as (offset & Hoff & Hcode); [lia|lia|].
  rewrite Hcode, encoding_json_code_map.
  eexists _, _, base, offset. split; [reflexivity|]. cbn [fst].
  split; [by apply answered_status|]. split; [by apply answered_body|]. done.
Qed.

(** * Closed instances of the further properties *)

(** A failing handler on a traced request: the request line at Info, the
    response line at Error. *)
Lemma request_and_response_logged_witness :
  log_level <$> logs (out (TracerLogPack refuse ctx_unbound PNil idle).2)
  = [LInfo; LError].
Proof.
  destruct (request_and_response_logged (H := text_runtime) None refuse ctx_unbound PNil
              idle get_greeter _ eq_refl eq_refl (or_introl eq_refl))
    as (x1 & L1 & Hafter).
  destruct (Hafter PNil (Some (PlainError "permission denied")) x1 eq_refl)
    as (_ & L & _).
  rewrite L, L1. reflexivity.
Defined.

(** The gauge of the operation is back where it was after a failing
    handler. *)
Lemma inflight_gauge_balanced_witness :
  inflight "/helloworld.Greeter/SayHello"
    (metrics (out (TracerLogPackWithMetrics (H := text_runtime) (Some (service_with None))
                     refuse ctx_unbound PNil idle).2))
  = 0.
Proof.
  destruct (inflight_gauge_balanced (H := text_runtime) (Some (service_with None)) refuse
              ctx_unbound PNil idle get_greeter eq_refl eq_refl)
    as (x1 & G1 & Hafter).
  rewrite (Hafter PNil (Some (PlainError "permission denied")) x1 eq_refl), G1.
  reflexivity.
Defined.

(** A proto reply gets its content type. *)
Lemma reply_header_annotation_witness :
  reply_header (TracerLogPack greet ctx_unbound (PMessage "{}") idle).2 !! "Content-Type"
  = Some "application/json".
Proof.
  destruct (reply_header_annotation (H := text_runtime) None greet ctx_unbound
              (PMessage "{}") idle get_greeter _ eq_refl eq_refl (or_introl eq_refl))
    as (x1 & R1 & Hafter).
  exact (proj2 (Hafter (PMessage "{}") None
                  (mkExchange (reply_header x1) (now x1 + 5) (out x1)) eq_refl)).
Defined.

(** A failing handler is counted once as a request and once as an error. *)
Lemma counters_updated_once_witness :
  occurrences RequestCounter
    (metrics (out (TracerLogPackWithMetrics (H := text_runtime) (Some (service_with None))
                     refuse ctx_unbound PNil idle).2)) = 1%nat
  ∧ occurrences ErrorCounter
      (metrics (out (TracerLogPackWithMetrics (H := text_runtime)
                       (Some (service_with None)) refuse ctx_unbound PNil idle).2))
    = 1%nat.
Proof.
  destruct (counters_updated_once (H := text_runtime) (Some (service_with None)) refuse
              ctx_unbound PNil idle get_greeter eq_refl eq_refl)
    as (x1 & C1 & Hafter).
  destruct (Hafter PNil (Some (PlainError "permission denied")) x1 eq_refl)
    as (Hr & _ & He).
  rewrite Hr, He, !C1 by auto. split; reflexivity.
Defined.

(** A login failure of the game module through the earlier encoder. *)
Lemma earlier_enhancedErrorEncoder_codes_witness :
  ∃ w' σ' base offset,
    BusinessCodes.enhancedErrorEncoder BusinessCodes.ascii_ToUpper
      BusinessCodes.ascii_ToLower BusinessCodes.errorReasonMap encoding_json
      kratos_FromError (service_with None) fresh_writer get_unknown login_error_in_game
      quiet = Some (w', σ')
    ∧ rw_status w' = Some StatusOK
    ∧ rw_body w' = rw_body fresh_writer +:+ envelope (base + offset)
    ∧ base ∈ [100000; 200000; 300000; 400000]
    ∧ (offset = 999 ∨ 0 <= offset <= 11).
Proof.
  refine (proj2 (earlier_enhancedErrorEncoder_codes BusinessCodes.ascii_ToUpper
                   BusinessCodes.ascii_ToLower BusinessCodes.errorReasonMap
                   kratos_FromError (service_with None) fresh_writer get_unknown
                   login_error_in_game quiet (reflexivity _) eq_refl eq_refl) _).
  discriminate.
Defined.

Example earlier_encoder_login_error_in_game :
  rw_body <$> (fst <$> BusinessCodes.enhancedErrorEncoder BusinessCodes.ascii_ToUpper
                 BusinessCodes.ascii_ToLower BusinessCodes.errorReasonMap encoding_json
                 kratos_FromError (service_with None) fresh_writer get_unknown
                 login_error_in_game quiet)
  = Some (envelope 200003).
Proof. reflexivity. Qed.
